(** * SwingTrend: the [Swing] trend engine of [src/swingtrend/Swing.py]

    A shallow embedding of the class [Swing] and a verification of its
    documented behaviour.

    Modelling choices.
    - Prices are exact rationals ([Q]).  Every test the engine makes on a
      price is a comparison or a truthiness test, which are exact on
      Python numbers; the only arithmetic is the quotient [pct / 100] of
      the constructor and the retracement fraction [(low - sph) / sph].
      Both are exact here and rounded floats in the code, so a statement
      on which side of the threshold a fraction falls is about the exact
      fraction.  Rounding, infinities and NaN are outside the model.
    - [None] is [None] of [option]; an instance attribute that was never
      assigned reads as its class-level default, which is [None] for
      every attribute declared in the class body.  The record gives a
      value to every attribute, so it does not tell an attribute held by
      the instance from one that is not: [high_dt], [low_dt],
      [plot_lines] and [plot_colors], which the class body does not
      declare, are [None] and the empty list until the code assigns
      them.
    - Timestamps are integers ([Z]); the engine only copies them and
      looks them up in the bound history.
    - The object is mutated in place and may raise after it has already
      assigned some attributes, so a method is a function from the
      object to the object it leaves behind, the callbacks it invoked
      and either a returned value or the exception raised.
    - A callback is a handle; invoking it is recorded with its arguments.
      What a callback does itself (to the engine or by raising) is
      outside the model, and so is logging. *)

From stdpp Require Import gmap strings.
From Stdlib Require Import QArith Qabs ZArith List Bool Lia.
Import ListNotations.
Close Scope Q_scope.
Open Scope Z_scope.

(** ** Python values *)

Module Py.

(** [x < y] on numbers, as a boolean. *)
Definition lt (x y : Q) : bool := negb (Qle_bool y x).

(** [x > y]. *)
Definition gt (x y : Q) : bool := lt y x.

(** Truth value of a number: zero is false. *)
Definition nonzero (x : Q) : bool := negb (Qeq_bool x 0).

(** Truth value of an attribute that is [None] or a number. *)
Definition truthy (o : option Q) : bool :=
  match o with
  | Some x => nonzero x
  | None => false
  end.

(** [o and test(o)]: the test is evaluated only on a truthy [o]. *)
Definition and_then (o : option Q) (test : Q -> bool) : bool :=
  match o with
  | Some x => nonzero x && test x
  | None => false
  end.

(** [o is None or test(o)]. *)
Definition none_or (o : option Q) (test : Q -> bool) : bool :=
  match o with
  | Some x => test x
  | None => true
  end.

End Py.

#[global] Arguments Py.lt : simpl never.
#[global] Arguments Py.gt : simpl never.
#[global] Arguments Py.nonzero : simpl never.

(** ** The data of the engine *)

(** [Swing.trend]: the string ["UP"] or ["DOWN"]. *)
Inductive Trend : Type := UP | DOWN.

(** A row of the price history handed to [Swing.run]: the index value
    followed by the open, high, low and close columns. *)
Record Bar : Type := MkBar {
  bar_dt : Z;
  bar_open : Q;
  bar_high : Q;
  bar_low : Q;
  bar_close : Q
}.

(** The bound [DataFrame], as the list of its rows. *)
Definition DataFrame : Type := list Bar.

(** A registered callback, identified by a handle. *)
Definition Callable : Type := nat.

(** The logger; the only thing the engine sets on it is the debug level. *)
Definition Logger : Type := bool.

(** Colour tags of the recorded lines: ["g"] and ["r"]. *)
Inductive Color : Type := Green | Red.

(** A recorded line [((coc_dt, coc), (line_end_dt, coc))]. *)
Definition Segment : Type := ((option Z * option Q) * (Z * option Q))%type.

(** Exceptions the methods can raise. *)
Inductive exn : Type :=
| ValueError
| KeyError
| TypeError
| IndexError
| ZeroDivisionError.

(** A call of [on_breakout] or [on_reversal], with its six positional
    arguments in order. *)
Inductive Event : Type :=
| Breakout (sym : option string) (dt : Z) (tr : option Trend)
           (close : Q) (pivot : Q) (coc_now : option Q)
| Reversal (sym : option string) (dt : Z) (tr : option Trend)
           (close : Q) (coc_now : option Q) (price_level : Q).

(** The attributes of a [Swing] object.  [bars_since] is the private
    attribute [__bars_since]. *)
Record Swing : Type := MkSwing {
  trend : option Trend;
  df : option DataFrame;
  high : option Q;
  low : option Q;
  coc : option Q;
  sph : option Q;
  spl : option Q;
  high_dt : option Z;
  low_dt : option Z;
  coc_dt : option Z;
  sph_dt : option Z;
  spl_dt : option Z;
  retrace_threshold : option Q;
  sideways_threshold : Z;
  symbol : option string;
  on_reversal : option Callable;
  on_breakout : option Callable;
  logger : Logger;
  plot : bool;
  plot_lines : list Segment;
  plot_colors : list Color;
  bars_since : Z
}.

Definition set_trend (v : option Trend) (s : Swing) : Swing :=
  MkSwing v (df s) (high s) (low s) (coc s) (sph s) (spl s) (high_dt s)
    (low_dt s) (coc_dt s) (sph_dt s) (spl_dt s) (retrace_threshold s)
    (sideways_threshold s) (symbol s) (on_reversal s) (on_breakout s)
    (logger s) (plot s) (plot_lines s) (plot_colors s) (bars_since s).

Definition set_df (v : option DataFrame) (s : Swing) : Swing :=
  MkSwing (trend s) v (high s) (low s) (coc s) (sph s) (spl s) (high_dt s)
    (low_dt s) (coc_dt s) (sph_dt s) (spl_dt s) (retrace_threshold s)
    (sideways_threshold s) (symbol s) (on_reversal s) (on_breakout s)
    (logger s) (plot s) (plot_lines s) (plot_colors s) (bars_since s).

Definition set_high (v : option Q) (s : Swing) : Swing :=
  MkSwing (trend s) (df s) v (low s) (coc s) (sph s) (spl s) (high_dt s)
    (low_dt s) (coc_dt s) (sph_dt s) (spl_dt s) (retrace_threshold s)
    (sideways_threshold s) (symbol s) (on_reversal s) (on_breakout s)
    (logger s) (plot s) (plot_lines s) (plot_colors s) (bars_since s).

Definition set_low (v : option Q) (s : Swing) : Swing :=
  MkSwing (trend s) (df s) (high s) v (coc s) (sph s) (spl s) (high_dt s)
    (low_dt s) (coc_dt s) (sph_dt s) (spl_dt s) (retrace_threshold s)
    (sideways_threshold s) (symbol s) (on_reversal s) (on_breakout s)
    (logger s) (plot s) (plot_lines s) (plot_colors s) (bars_since s).

Definition set_coc (v : option Q) (s : Swing) : Swing :=
  MkSwing (trend s) (df s) (high s) (low s) v (sph s) (spl s) (high_dt s)
    (low_dt s) (coc_dt s) (sph_dt s) (spl_dt s) (retrace_threshold s)
    (sideways_threshold s) (symbol s) (on_reversal s) (on_breakout s)
    (logger s) (plot s) (plot_lines s) (plot_colors s) (bars_since s).

Definition set_sph (v : option Q) (s : Swing) : Swing :=
  MkSwing (trend s) (df s) (high s) (low s) (coc s) v (spl s) (high_dt s)
    (low_dt s) (coc_dt s) (sph_dt s) (spl_dt s) (retrace_threshold s)
    (sideways_threshold s) (symbol s) (on_reversal s) (on_breakout s)
    (logger s) (plot s) (plot_lines s) (plot_colors s) (bars_since s).

Definition set_spl (v : option Q) (s : Swing) : Swing :=
  MkSwing (trend s) (df s) (high s) (low s) (coc s) (sph s) v (high_dt s)
    (low_dt s) (coc_dt s) (sph_dt s) (spl_dt s) (retrace_threshold s)
    (sideways_threshold s) (symbol s) (on_reversal s) (on_breakout s)
    (logger s) (plot s) (plot_lines s) (plot_colors s) (bars_since s).

Definition set_high_dt (v : option Z) (s : Swing) : Swing :=
  MkSwing (trend s) (df s) (high s) (low s) (coc s) (sph s) (spl s) v
    (low_dt s) (coc_dt s) (sph_dt s) (spl_dt s) (retrace_threshold s)
    (sideways_threshold s) (symbol s) (on_reversal s) (on_breakout s)
    (logger s) (plot s) (plot_lines s) (plot_colors s) (bars_since s).

Definition set_low_dt (v : option Z) (s : Swing) : Swing :=
  MkSwing (trend s) (df s) (high s) (low s) (coc s) (sph s) (spl s)
    (high_dt s) v (coc_dt s) (sph_dt s) (spl_dt s) (retrace_threshold s)
    (sideways_threshold s) (symbol s) (on_reversal s) (on_breakout s)
    (logger s) (plot s) (plot_lines s) (plot_colors s) (bars_since s).

Definition set_coc_dt (v : option Z) (s : Swing) : Swing :=
  MkSwing (trend s) (df s) (high s) (low s) (coc s) (sph s) (spl s)
    (high_dt s) (low_dt s) v (sph_dt s) (spl_dt s) (retrace_threshold s)
    (sideways_threshold s) (symbol s) (on_reversal s) (on_breakout s)
    (logger s) (plot s) (plot_lines s) (plot_colors s) (bars_since s).

Definition set_sph_dt (v : option Z) (s : Swing) : Swing :=
  MkSwing (trend s) (df s) (high s) (low s) (coc s) (sph s) (spl s)
    (high_dt s) (low_dt s) (coc_dt s) v (spl_dt s) (retrace_threshold s)
    (sideways_threshold s) (symbol s) (on_reversal s) (on_breakout s)
    (logger s) (plot s) (plot_lines s) (plot_colors s) (bars_since s).

Definition set_spl_dt (v : option Z) (s : Swing) : Swing :=
  MkSwing (trend s) (df s) (high s) (low s) (coc s) (sph s) (spl s)
    (high_dt s) (low_dt s) (coc_dt s) (sph_dt s) v (retrace_threshold s)
    (sideways_threshold s) (symbol s) (on_reversal s) (on_breakout s)
    (logger s) (plot s) (plot_lines s) (plot_colors s) (bars_since s).

Definition set_symbol (v : option string) (s : Swing) : Swing :=
  MkSwing (trend s) (df s) (high s) (low s) (coc s) (sph s) (spl s)
    (high_dt s) (low_dt s) (coc_dt s) (sph_dt s) (spl_dt s)
    (retrace_threshold s) (sideways_threshold s) v (on_reversal s)
    (on_breakout s) (logger s) (plot s) (plot_lines s) (plot_colors s)
    (bars_since s).

Definition set_plot (v : bool) (s : Swing) : Swing :=
  MkSwing (trend s) (df s) (high s) (low s) (coc s) (sph s) (spl s)
    (high_dt s) (low_dt s) (coc_dt s) (sph_dt s) (spl_dt s)
    (retrace_threshold s) (sideways_threshold s) (symbol s) (on_reversal s)
    (on_breakout s) (logger s) v (plot_lines s) (plot_colors s) (bars_since s).

Definition set_plot_lines (v : list Segment) (s : Swing) : Swing :=
  MkSwing (trend s) (df s) (high s) (low s) (coc s) (sph s) (spl s)
    (high_dt s) (low_dt s) (coc_dt s) (sph_dt s) (spl_dt s)
    (retrace_threshold s) (sideways_threshold s) (symbol s) (on_reversal s)
    (on_breakout s) (logger s) (plot s) v (plot_colors s) (bars_since s).

Definition set_plot_colors (v : list Color) (s : Swing) : Swing :=
  MkSwing (trend s) (df s) (high s) (low s) (coc s) (sph s) (spl s)
    (high_dt s) (low_dt s) (coc_dt s) (sph_dt s) (spl_dt s)
    (retrace_threshold s) (sideways_threshold s) (symbol s) (on_reversal s)
    (on_breakout s) (logger s) (plot s) (plot_lines s) v (bars_since s).

Definition set_bars_since (v : Z) (s : Swing) : Swing :=
  MkSwing (trend s) (df s) (high s) (low s) (coc s) (sph s) (spl s)
    (high_dt s) (low_dt s) (coc_dt s) (sph_dt s) (spl_dt s)
    (retrace_threshold s) (sideways_threshold s) (symbol s) (on_reversal s)
    (on_breakout s) (logger s) (plot s) (plot_lines s) (plot_colors s) v.

(** Assignment of a callback by the caller: [swing.on_reversal = f]. *)
Definition set_on_reversal (v : option Callable) (s : Swing) : Swing :=
  MkSwing (trend s) (df s) (high s) (low s) (coc s) (sph s) (spl s)
    (high_dt s) (low_dt s) (coc_dt s) (sph_dt s) (spl_dt s)
    (retrace_threshold s) (sideways_threshold s) (symbol s) v
    (on_breakout s) (logger s) (plot s) (plot_lines s) (plot_colors s)
    (bars_since s).

(** [swing.on_breakout = f]. *)
Definition set_on_breakout (v : option Callable) (s : Swing) : Swing :=
  MkSwing (trend s) (df s) (high s) (low s) (coc s) (sph s) (spl s)
    (high_dt s) (low_dt s) (coc_dt s) (sph_dt s) (spl_dt s)
    (retrace_threshold s) (sideways_threshold s) (symbol s) (on_reversal s)
    v (logger s) (plot s) (plot_lines s) (plot_colors s) (bars_since s).

(** ** Methods as state transformers *)

(** How a call ends. *)
Inductive outcome (A : Type) : Type :=
| Returned (a : A)
| Raised (e : exn).

Arguments Returned {A} a.
Arguments Raised {A} e.

(** What a call leaves behind: the object, the callbacks invoked (oldest
    first) and how the call ended. *)
Record Res (A : Type) : Type := MkRes {
  final : Swing;
  calls : list Event;
  value : outcome A
}.

Arguments MkRes {A} final calls value.
Arguments final {A} r.
Arguments calls {A} r.
Arguments value {A} r.

Definition M (A : Type) : Type := Swing -> Res A.

Definition ret {A : Type} (a : A) : M A :=
  fun s => MkRes s [] (Returned a).

Definition bind {A B : Type} (m : M A) (k : A -> M B) : M B :=
  fun s =>
    match m s with
    | MkRes s1 c1 (Returned a) =>
        match k a s1 with
        | MkRes s2 c2 v => MkRes s2 (c1 ++ c2) v
        end
    | MkRes s1 c1 (Raised e) => MkRes s1 c1 (Raised e)
    end.

Definition get : M Swing :=
  fun s => MkRes s [] (Returned s).

Definition modify (f : Swing -> Swing) : M unit :=
  fun s => MkRes (f s) [] (Returned tt).

Definition raise {A : Type} (e : exn) : M A :=
  fun s => MkRes s [] (Raised e).

Definition call (ev : Event) : M unit :=
  fun s => MkRes s [ev] (Returned tt).

Definition when (b : bool) (m : M unit) : M unit :=
  if b then m else ret tt.

Declare Scope py_scope.
Delimit Scope py_scope with py.
Notation "x <- m ;; k" := (bind m (fun x => k))
  (at level 100, m at next level, right associativity) : py_scope.
Notation "m ;; k" := (bind m (fun _ => k))
  (at level 100, right associativity) : py_scope.
Open Scope py_scope.

(** Reading a number out of an attribute; arithmetic on [None] raises. *)
Definition num (o : option Q) : M Q :=
  match o with
  | Some x => ret x
  | None => raise TypeError
  end.

(** [a / b].  The quotient is the exact one; the code computes the float
    quotient, which is rounded. *)
Definition div (a b : Q) : M Q :=
  if Py.nonzero b then ret (a / b)%Q else raise ZeroDivisionError.

(** ** [Swing.__init__] *)

(** The constructor assigns [retrace_threshold] (for a truthy percentage),
    [sideways_threshold], [logger], [plot] and the counter; every other
    field holds the class-level default, or [None] and the empty list for
    the four attributes the class body does not declare.  The threshold is
    the exact [pct / 100], where the code stores the float quotient. *)
Definition init (retrace_threshold_pct : option Q) (sideways_thr : Z)
    (debug : bool) : Swing :=
  {| trend := None; df := None;
     high := None; low := None; coc := None; sph := None; spl := None;
     high_dt := None; low_dt := None; coc_dt := None;
     sph_dt := None; spl_dt := None;
     retrace_threshold :=
       match retrace_threshold_pct with
       | Some pct => if Py.nonzero pct then Some (pct / 100)%Q else None
       | None => None
       end;
     sideways_threshold := sideways_thr;
     symbol := None; on_reversal := None; on_breakout := None;
     logger := debug;
     plot := false; plot_lines := []; plot_colors := [];
     bars_since := 0 |}.

(** [Swing()] with the default arguments. *)
Definition default : Swing := init (Some 5%Q) 20 false.

(** ** [Swing.is_sideways] *)

Definition is_sideways : M bool :=
  s <- get ;;
  ret (sideways_threshold s <? bars_since s).

(** ** [Swing.__line_end_dt] *)

Fixpoint first_pos (ix : list Z) (dt : Z) : Z :=
  match ix with
  | [] => 0
  | x :: rest => if x =? dt then 0 else 1 + first_pos rest dt
  end.

Fixpoint nondecreasing (ix : list Z) : bool :=
  match ix with
  | x :: (y :: _) as rest => (x <=? y) && nondecreasing rest
  | _ => true
  end.

Fixpoint nonincreasing (ix : list Z) : bool :=
  match ix with
  | x :: (y :: _) as rest => (y <=? x) && nonincreasing rest
  | _ => true
  end.

(** [int(idx)] for [idx = df.index.get_loc(dt)] (after a slice has been
    replaced by its stop).  The lookup is the index of the history, outside
    the engine: a label that occurs once gives its position, a label that
    occurs several times in a monotonic index gives a slice whose stop is
    one past the last occurrence, a missing label raises [KeyError], and
    the boolean mask of the remaining case does not convert to an integer. *)
Definition get_loc (ix : list Z) (dt : option Z) : M Z :=
  match dt with
  | None => raise KeyError
  | Some d =>
      match count_occ Z.eq_dec ix d with
      | O => raise KeyError
      | S O => ret (first_pos ix d)
      | S (S _ as n) =>
          if nondecreasing ix || nonincreasing ix
          then ret (first_pos ix d + Z.of_nat (S n))
          else raise TypeError
      end
  end.

Definition line_end_dt (dt : option Z) : M Z :=
  s <- get ;;
  match df s with
  | None => raise ValueError
  | Some frame =>
      let ix := map bar_dt frame in
      idx <- get_loc ix dt ;;
      let idx := Z.min (idx + 15) (Z.of_nat (length frame) - 1) in
      match nth_error ix (Z.to_nat idx) with
      | Some d => ret d
      | None => raise IndexError
      end
  end.

(** The block guarded by [if self.plot:], shared by the four places that
    record a line. *)
Definition record_line (color : Color) : M unit :=
  s <- get ;;
  if plot s then
    end_dt <- line_end_dt (coc_dt s) ;;
    modify (fun s =>
      set_plot_colors (plot_colors s ++ [color])
        (set_plot_lines
           (plot_lines s ++ [((coc_dt s, coc s), (end_dt, coc s))]) s))
  else ret tt.

(** ** [Swing.__switch_downtrend] and [Swing.__switch_uptrend] *)

Definition switch_downtrend (dt : Z) (lo : Q) : M unit :=
  modify (fun s =>
    set_bars_since 0
      (set_low_dt (Some dt) (set_low (Some lo)
        (set_sph_dt None (set_sph None (set_high None
          (set_coc_dt (high_dt s) (set_coc (high s)
            (set_trend (Some DOWN) s))))))))) ;;
  record_line Red.

Definition switch_uptrend (dt : Z) (hi : Q) : M unit :=
  modify (fun s =>
    set_bars_since 0
      (set_high_dt (Some dt) (set_high (Some hi)
        (set_spl_dt None (set_spl None (set_low None
          (set_coc_dt (low_dt s) (set_coc (low s)
            (set_trend (Some UP) s))))))))) ;;
  record_line Green.

(** ** [Swing.identify] *)

(** No trend yet ([self.trend is None]). *)
Definition identify_unset (dt : Z) (hi lo cl : Q) : M unit :=
  s <- get ;;
  match high s, low s with
  | Some h0, Some l0 =>
      (if Py.gt cl h0 then
         modify (fun s =>
           set_coc_dt (low_dt s) (set_coc (low s)
             (set_high_dt (Some dt) (set_high (Some hi)
               (set_trend (Some UP) s)))))
       else if Py.lt cl l0 then
         modify (fun s =>
           set_coc_dt (high_dt s) (set_coc (high s)
             (set_low_dt (Some dt) (set_low (Some lo)
               (set_trend (Some DOWN) s)))))
       else ret tt) ;;
      s <- get ;;
      h1 <- num (high s) ;;
      when (Py.gt hi h1)
        (modify (fun s => set_high_dt (Some dt) (set_high (Some hi) s))) ;;
      s <- get ;;
      l1 <- num (low s) ;;
      when (Py.lt lo l1)
        (modify (fun s => set_low_dt (Some dt) (set_low (Some lo) s)))
  | _, _ =>
      modify (fun s =>
        set_low_dt (Some dt) (set_high_dt (Some dt)
          (set_low (Some lo) (set_high (Some hi) s))))
  end.

(** The body of [if close > self.sph:], with [p] the pivot [self.sph]. *)
Definition breakout_up (dt : Z) (cl p : Q) : M unit :=
  s <- get ;;
  l0 <- num (low s) ;;
  retrace_pct <- div (l0 - p)%Q p ;;
  modify (fun s => set_bars_since 0 (set_sph_dt None (set_sph None s))) ;;
  s <- get ;;
  if Py.and_then (retrace_threshold s) (fun t => Py.lt (Qabs retrace_pct) t)
  then ret tt
  else
    modify (fun s => set_coc_dt (low_dt s) (set_coc (low s) s)) ;;
    record_line Green ;;
    s <- get ;;
    match on_breakout s with
    | Some _ => call (Breakout (symbol s) dt (trend s) cl p (coc s))
    | None => ret tt
    end.

(** The statements of the [UP] branch after the [if self.sph:] block. *)
Definition formation_up (dt : Z) (hi lo cl : Q) : M unit :=
  s <- get ;;
  if Py.and_then (high s) (fun x => Py.gt hi x) then
    modify (fun s =>
      set_low_dt (Some dt) (set_low (Some lo)
        (set_high_dt (Some dt) (set_high (Some hi) s))))
  else
    when (match sph s with None => true | Some _ => false end)
      (modify (fun s =>
         set_bars_since 0 (set_low_dt None (set_low None
           (set_sph_dt (high_dt s) (set_sph (high s) s)))))) ;;
    s <- get ;;
    when (Py.none_or (low s) (fun x => Py.lt lo x))
      (modify (fun s =>
         set_bars_since (bars_since s + 1)
           (set_low_dt (Some dt) (set_low (Some lo) s)))) ;;
    s <- get ;;
    match coc s with
    | Some price_level =>
        if Py.nonzero price_level && Py.lt cl price_level then
          switch_downtrend dt lo ;;
          s <- get ;;
          match on_reversal s with
          | Some _ =>
              call (Reversal (symbol s) dt (trend s) cl (coc s) price_level)
          | None => ret tt
          end
        else ret tt
    | None => ret tt
    end.

(** The [if self.sph:] block up to the breakout test: count the bar and
    stretch the tracked extremes. *)
Definition pending_up (dt : Z) (hi lo : Q) : M unit :=
  modify (fun s => set_bars_since (bars_since s + 1) s) ;;
  s <- get ;;
  when (Py.and_then (high s) (fun x => Py.gt hi x))
    (modify (fun s => set_high_dt (Some dt) (set_high (Some hi) s))) ;;
  s <- get ;;
  when (Py.none_or (low s) (fun x => Py.lt lo x))
    (modify (fun s => set_low_dt (Some dt) (set_low (Some lo) s))).

(** [self.trend == "UP"]. *)
Definition identify_up (dt : Z) (hi lo cl : Q) : M unit :=
  s <- get ;;
  match sph s with
  | Some p =>
      if Py.nonzero p then
        pending_up dt hi lo ;;
        if Py.gt cl p then breakout_up dt cl p
        else formation_up dt hi lo cl
      else formation_up dt hi lo cl
  | None => formation_up dt hi lo cl
  end.

(** The body of [if close < self.spl:], with [p] the pivot [self.spl]. *)
Definition breakout_down (dt : Z) (cl p : Q) : M unit :=
  s <- get ;;
  h0 <- num (high s) ;;
  retrace_pct <- div (h0 - p)%Q p ;;
  modify (fun s => set_bars_since 0 (set_spl_dt None (set_spl None s))) ;;
  s <- get ;;
  if Py.and_then (retrace_threshold s) (fun t => Py.lt retrace_pct t)
  then ret tt
  else
    modify (fun s => set_coc_dt (high_dt s) (set_coc (high s) s)) ;;
    record_line Red ;;
    s <- get ;;
    match on_breakout s with
    | Some _ => call (Breakout (symbol s) dt (trend s) cl p (coc s))
    | None => ret tt
    end.

(** The statements of the [DOWN] branch after the [if self.spl:] block. *)
Definition formation_down (dt : Z) (hi lo cl : Q) : M unit :=
  s <- get ;;
  if Py.and_then (low s) (fun x => Py.lt lo x) then
    modify (fun s =>
      set_high_dt (Some dt) (set_low_dt (Some dt)
        (set_high (Some hi) (set_low (Some lo) s))))
  else
    when (match spl s with None => true | Some _ => false end)
      (modify (fun s =>
         set_bars_since 0 (set_high_dt None (set_high None
           (set_spl_dt (low_dt s) (set_spl (low s) s)))))) ;;
    s <- get ;;
    when (Py.none_or (high s) (fun x => Py.gt hi x))
      (modify (fun s =>
         set_bars_since (bars_since s + 1)
           (set_high_dt (Some dt) (set_high (Some hi) s)))) ;;
    s <- get ;;
    match coc s with
    | Some price_level =>
        if Py.nonzero price_level && Py.gt cl price_level then
          switch_uptrend dt hi ;;
          s <- get ;;
          match on_reversal s with
          | Some _ =>
              call (Reversal (symbol s) dt (trend s) cl (coc s) price_level)
          | None => ret tt
          end
        else ret tt
    | None => ret tt
    end.

(** The [if self.spl:] block up to the breakout test. *)
Definition pending_down (dt : Z) (hi lo : Q) : M unit :=
  modify (fun s => set_bars_since (bars_since s + 1) s) ;;
  s <- get ;;
  when (Py.and_then (low s) (fun x => Py.lt lo x))
    (modify (fun s => set_low_dt (Some dt) (set_low (Some lo) s))) ;;
  s <- get ;;
  when (Py.none_or (high s) (fun x => Py.gt hi x))
    (modify (fun s => set_high_dt (Some dt) (set_high (Some hi) s))).

(** [self.trend == "DOWN"]. *)
Definition identify_down (dt : Z) (hi lo cl : Q) : M unit :=
  s <- get ;;
  match spl s with
  | Some p =>
      if Py.nonzero p then
        pending_down dt hi lo ;;
        if Py.lt cl p then breakout_down dt cl p
        else formation_down dt hi lo cl
      else formation_down dt hi lo cl
  | None => formation_down dt hi lo cl
  end.

Definition identify (dt : Z) (hi lo cl : Q) : M unit :=
  s <- get ;;
  match trend s with
  | None => identify_unset dt hi lo cl
  | Some UP => identify_up dt hi lo cl
  | Some DOWN => identify_down dt hi lo cl
  end.

(** ** [Swing.reset] *)

Definition reset : M unit :=
  modify (fun s =>
    set_spl_dt None (set_sph_dt None (set_coc_dt None (set_low_dt None
      (set_high_dt None (set_spl None (set_sph None (set_coc None
        (set_trend None (set_low None (set_high None s))))))))))) ;;
  modify (set_bars_since 0) ;;
  s <- get ;;
  when (plot s)
    (modify (fun s => set_plot_lines [] (set_plot_colors [] (set_df None s)))).

(** ** [Swing.run] *)

(** The loop [for t in df.itertuples(name=None)] with its call of
    [identify]; an exception ends it. *)
Fixpoint identify_all (rows : list Bar) : M unit :=
  match rows with
  | [] => ret tt
  | t :: rest =>
      identify (bar_dt t) (bar_high t) (bar_low t) (bar_close t) ;;
      identify_all rest
  end.

(** [run(sym, df, plot_lines)]; the [add_series] option only writes a
    column of the caller's table and is left out. *)
Definition run (sym : string) (frame : DataFrame) (plot_lines_arg : bool)
    : M unit :=
  modify (set_symbol (Some sym)) ;;
  when plot_lines_arg
    (modify (fun s =>
       set_df (Some frame) (set_plot_lines [] (set_plot_colors []
         (set_plot true s))))) ;;
  identify_all frame.

(** ** [Swing.pack] and [Swing.unpack] *)

(** Values stored in the attribute dictionary of the object. *)
Inductive Value : Type :=
| VNone
| VNum (q : Q)
| VInt (z : Z)
| VDate (z : Z)
| VBool (b : bool)
| VStr (x : string)
| VFrame (f : DataFrame)
| VLines (l : list Segment)
| VColors (l : list Color)
| VCallable (c : Callable)
| VLogger (l : Logger).

Module Enc.

Definition price (o : option Q) : Value :=
  match o with Some q => VNum q | None => VNone end.

Definition date (o : option Z) : Value :=
  match o with Some z => VDate z | None => VNone end.

Definition trend (o : option Trend) : Value :=
  match o with
  | Some UP => VStr "UP"
  | Some DOWN => VStr "DOWN"
  | None => VNone
  end.

Definition text (o : option string) : Value :=
  match o with Some x => VStr x | None => VNone end.

Definition frame (o : option DataFrame) : Value :=
  match o with Some f => VFrame f | None => VNone end.

Definition callable (o : option Callable) : Value :=
  match o with Some c => VCallable c | None => VNone end.

End Enc.

(** [self.__dict__], completed: the instance dictionary of the code holds
    only the attributes assigned so far, and this one lists every
    attribute, one that was never assigned with its class-level default.
    It is the dictionary of an object on which every attribute has been
    assigned. *)
Definition attrs (s : Swing) : gmap string Value :=
  list_to_map
    [ ("trend", Enc.trend (trend s));
      ("df", Enc.frame (df s));
      ("high", Enc.price (high s));
      ("low", Enc.price (low s));
      ("coc", Enc.price (coc s));
      ("sph", Enc.price (sph s));
      ("spl", Enc.price (spl s));
      ("high_dt", Enc.date (high_dt s));
      ("low_dt", Enc.date (low_dt s));
      ("coc_dt", Enc.date (coc_dt s));
      ("sph_dt", Enc.date (sph_dt s));
      ("spl_dt", Enc.date (spl_dt s));
      ("retrace_threshold", Enc.price (retrace_threshold s));
      ("sideways_threshold", VInt (sideways_threshold s));
      ("symbol", Enc.text (symbol s));
      ("on_reversal", Enc.callable (on_reversal s));
      ("on_breakout", Enc.callable (on_breakout s));
      ("logger", VLogger (logger s));
      ("plot", VBool (plot s));
      ("plot_lines", VLines (plot_lines s));
      ("plot_colors", VColors (plot_colors s));
      ("_Swing__bars_since", VInt (bars_since s)) ].

Module Dec.

(** Reading an attribute back.  A missing key reads as the class-level
    default; [None] at the outer level means that the stored value is
    not one the attribute can hold in this model. *)

Definition price (d : gmap string Value) (k : string) : option (option Q) :=
  match d !! k with
  | None | Some VNone => Some None
  | Some (VNum q) => Some (Some q)
  | Some _ => None
  end.

Definition date (d : gmap string Value) (k : string) : option (option Z) :=
  match d !! k with
  | None | Some VNone => Some None
  | Some (VDate z) => Some (Some z)
  | Some _ => None
  end.

Definition trend (d : gmap string Value) (k : string)
    : option (option Trend) :=
  match d !! k with
  | None | Some VNone => Some None
  | Some (VStr x) =>
      if String.eqb x "UP" then Some (Some UP)
      else if String.eqb x "DOWN" then Some (Some DOWN)
      else None
  | Some _ => None
  end.

Definition text (d : gmap string Value) (k : string)
    : option (option string) :=
  match d !! k with
  | None | Some VNone => Some None
  | Some (VStr x) => Some (Some x)
  | Some _ => None
  end.

Definition frame (d : gmap string Value) (k : string)
    : option (option DataFrame) :=
  match d !! k with
  | None | Some VNone => Some None
  | Some (VFrame f) => Some (Some f)
  | Some _ => None
  end.

Definition callable (d : gmap string Value) (k : string)
    : option (option Callable) :=
  match d !! k with
  | None | Some VNone => Some None
  | Some (VCallable c) => Some (Some c)
  | Some _ => None
  end.

Definition int (d : gmap string Value) (k : string) : option Z :=
  match d !! k with
  | Some (VInt z) => Some z
  | _ => None
  end.

Definition flag (d : gmap string Value) (k : string) : option bool :=
  match d !! k with
  | Some (VBool b) => Some b
  | _ => None
  end.

Definition log (d : gmap string Value) (k : string) : option Logger :=
  match d !! k with
  | Some (VLogger l) => Some l
  | _ => None
  end.

Definition lines (d : gmap string Value) (k : string)
    : option (list Segment) :=
  match d !! k with
  | None => Some []
  | Some (VLines l) => Some l
  | Some _ => None
  end.

Definition colors (d : gmap string Value) (k : string)
    : option (list Color) :=
  match d !! k with
  | None => Some []
  | Some (VColors l) => Some l
  | Some _ => None
  end.

End Dec.

(** The object whose attribute dictionary is [d]. *)
Definition of_attrs (d : gmap string Value) : option Swing :=
  a1 ← Dec.trend d "trend"; a2 ← Dec.frame d "df";
  a3 ← Dec.price d "high"; a4 ← Dec.price d "low";
  a5 ← Dec.price d "coc"; a6 ← Dec.price d "sph"; a7 ← Dec.price d "spl";
  a8 ← Dec.date d "high_dt"; a9 ← Dec.date d "low_dt";
  a10 ← Dec.date d "coc_dt"; a11 ← Dec.date d "sph_dt";
  a12 ← Dec.date d "spl_dt";
  a13 ← Dec.price d "retrace_threshold";
  a14 ← Dec.int d "sideways_threshold";
  a15 ← Dec.text d "symbol";
  a16 ← Dec.callable d "on_reversal"; a17 ← Dec.callable d "on_breakout";
  a18 ← Dec.log d "logger"; a19 ← Dec.flag d "plot";
  a20 ← Dec.lines d "plot_lines"; a21 ← Dec.colors d "plot_colors";
  a22 ← Dec.int d "_Swing__bars_since";
  Some (MkSwing a1 a2 a3 a4 a5 a6 a7 a8 a9 a10 a11 a12 a13 a14 a15 a16 a17
          a18 a19 a20 a21 a22).

(** [pack]: a copy of the attribute dictionary without the logger and the
    callbacks.  The copy is a value; in the code it is a shallow copy, whose
    line lists are those of the object. *)
Definition pack (s : Swing) : gmap string Value :=
  delete "on_breakout" (delete "on_reversal" (delete "logger" (attrs s))).

(** [unpack(data)]: [self.__dict__.update(data)].  The result is [None]
    when [data] stores a value the attribute cannot hold in this model. *)
Definition unpack (data : gmap string Value) (s : Swing) : option Swing :=
  of_attrs (data ∪ attrs s).

(** ** Notions used in the statements *)

(** The lookup of [coc_dt] in the bound history is sure to succeed: a
    history is bound, no timestamp is repeated in it and [coc_dt] is one
    of them. *)
Definition lookup_ok (s : Swing) : Prop :=
  exists frame d,
    df s = Some frame /\ NoDup (map bar_dt frame) /\
    coc_dt s = Some d /\ In d (map bar_dt frame).

(** What [record_line] can do on an object [s]. *)
Inductive line_spec (c : Color) (s : Swing) : Res unit -> Prop :=
| line_off :
    plot s = false -> line_spec c s (MkRes s [] (Returned tt))
| line_added d :
    plot s = true -> df s <> None ->
    line_spec c s
      (MkRes (set_plot_colors (plot_colors s ++ [c])
                (set_plot_lines
                   (plot_lines s ++ [((coc_dt s, coc s), (d, coc s))]) s))
             [] (Returned tt))
| line_failed e :
    plot s = true -> e <> ZeroDivisionError ->
    (df s = None -> e = ValueError) -> ~ lookup_ok s ->
    line_spec c s (MkRes s [] (Raised e)).

(** The structural invariant of the tracked levels. *)
Definition inv (s : Swing) : Prop :=
  (sph s <> None -> trend s = Some UP) /\
  (spl s <> None -> trend s = Some DOWN) /\
  (trend s = None -> coc s = None /\ sph s = None /\ spl s = None).

(** Objects a caller can obtain: a constructed engine, on which callbacks
    are assigned and [identify], [reset] and [run] are called; a call that
    raised leaves the object as it was at the [raise]. *)
Inductive reachable : Swing -> Prop :=
| reach_init pct thr dbg : reachable (init pct thr dbg)
| reach_identify s dt hi lo cl :
    reachable s -> reachable (final (identify dt hi lo cl s))
| reach_reset s : reachable s -> reachable (final (reset s))
| reach_run s sym frame lines :
    reachable s -> reachable (final (run sym frame lines s))
| reach_on_reversal s f :
    reachable s -> reachable (set_on_reversal f s)
| reach_on_breakout s f :
    reachable s -> reachable (set_on_breakout f s).

(** A bar that, with the pivot [p] pending in trend [t] and the reversal
    level [k], neither closes beyond the pivot nor beyond the reversal
    level. *)
Definition quiet (t : Trend) (p : Q) (k : option Q) (b : Bar) : bool :=
  match t with
  | UP =>
      negb (Py.gt (bar_close b) p)
      && negb (Py.and_then k (fun x => Py.lt (bar_close b) x))
  | DOWN =>
      negb (Py.lt (bar_close b) p)
      && negb (Py.and_then k (fun x => Py.gt (bar_close b) x))
  end.

(** The pending pivot of the trend [t]. *)
Definition pivot (t : Trend) (s : Swing) : option Q :=
  match t with
  | UP => sph s
  | DOWN => spl s
  end.

(** A row with the given index, high, low and close. *)
Definition bar (dt : Z) (hi lo cl : Q) : Bar := MkBar dt cl hi lo cl.

Definition is_breakout (ev : Event) : bool :=
  match ev with
  | Breakout _ _ _ _ _ _ => true
  | Reversal _ _ _ _ _ _ => false
  end.


(** The extremes tracked once a bar with high [hi] and low [lo] has been
    taken into the [if self.sph:] block (trend [UP]) or the [if self.spl:]
    block (trend [DOWN]). *)
Definition stretched_high_up (s : Swing) (hi : Q) : option Q :=
  if Py.and_then (high s) (fun x => Py.gt hi x) then Some hi else high s.


Definition stretched_low_down (s : Swing) (lo : Q) : option Q :=
  if Py.and_then (low s) (fun x => Py.lt lo x) then Some lo else low s.

Definition stretched_high_down (s : Swing) (hi : Q) : Q :=
  match high s with
  | Some x => if Py.gt hi x then hi else x
  | None => hi
  end.


Definition retrace_down (s : Swing) (hi p : Q) : Q :=
  ((stretched_high_down s hi - p) / p)%Q.



(** The calls a registered callback receives. *)
Definition notify (cb : option Callable) (ev : Event) : list Event :=
  match cb with
  | Some _ => [ev]
  | None => []
  end.

(** Sample objects: an engine fed the first bars of an advance or of a
    decline. *)
Definition up_started : Swing :=
  final (identify_all [bar 0 10 8 9; bar 1 12 9 11] default).

Definition up_pending : Swing :=
  final (identify 2 11 9 10 up_started).

Definition down_started : Swing :=
  final (identify_all [bar 0 10 8 9; bar 1 9 6 7] default).

Definition down_pending : Swing :=
  final (identify 2 9 7 8 down_started).



(** The recorded lines and their colours go in pairs, and there are none
    unless recording was switched on. *)
Definition lines_inv (s : Swing) : Prop :=
  length (plot_lines s) = length (plot_colors s) /\
  (plot s = false -> plot_lines s = [] /\ plot_colors s = []).

(** What a call may do to the attributes that are not tracked levels:
    nothing, except that at most one line and its colour are appended, and
    only when recording is on and a history is bound. *)
Definition frame_of (s s' : Swing) : Prop :=
  df s' = df s /\ retrace_threshold s' = retrace_threshold s /\
  sideways_threshold s' = sideways_threshold s /\
  symbol s' = symbol s /\ on_reversal s' = on_reversal s /\
  on_breakout s' = on_breakout s /\ logger s' = logger s /\
  plot s' = plot s /\
  ((plot_lines s' = plot_lines s /\ plot_colors s' = plot_colors s) \/
   (plot s = true /\ df s <> None /\
    exists seg c,
      plot_lines s' = plot_lines s ++ [seg] /\
      plot_colors s' = plot_colors s ++ [c])).

(** An object that tracks nothing: no trend, no level, counter 0. *)
Definition pristine (s : Swing) : Prop :=
  trend s = None /\ high s = None /\ low s = None /\ coc s = None /\
  sph s = None /\ spl s = None /\ high_dt s = None /\ low_dt s = None /\
  coc_dt s = None /\ sph_dt s = None /\ spl_dt s = None /\
  bars_since s = 0.

(** Which tracked levels are set in each trend. *)
Definition levels_inv (s : Swing) : Prop :=
  (trend s = Some UP ->
   high s <> None /\ coc s <> None /\ (sph s <> None -> low s <> None)) /\
  (trend s = Some DOWN ->
   low s <> None /\ coc s <> None /\ (spl s <> None -> high s <> None)) /\
  (trend s = None -> (high s = None <-> low s = None)).

(** A level that is set carries a timestamp of the history [F]. *)
Definition dated (F : list Z) (level : option Q) (d : option Z) : Prop :=
  match level with
  | None => True
  | Some _ =>
      match d with
      | Some x => In x F
      | None => False
      end
  end.

(** What holds of an engine while [run] records lines over [frame]. *)
Definition recording_inv (frame : DataFrame) (s : Swing) : Prop :=
  plot s = true /\ df s = Some frame /\
  dated (map bar_dt frame) (high s) (high_dt s) /\
  dated (map bar_dt frame) (low s) (low_dt s) /\
  dated (map bar_dt frame) (coc s) (coc_dt s).


(** * Verification *)

#[global] Arguments record_line : simpl never.

(** ** Facts on the Python tests *)

Lemma Py_lt_iff x y : Py.lt x y = true <-> (x < y)%Q.
Proof.
  unfold Py.lt. rewrite negb_true_iff, <- not_true_iff_false, Qle_bool_iff.
  split; [apply Qnot_le_lt | apply Qlt_not_le].
Qed.

Lemma Py_lt_irrefl x : Py.lt x x = false.
Proof.
  apply not_true_iff_false. rewrite Py_lt_iff. apply Qlt_irrefl.
Qed.

Lemma Py_gt_irrefl x : Py.gt x x = false.
Proof. apply Py_lt_irrefl. Qed.



(** ** Symbolic execution *)

Ltac open_swing s :=
  destruct s as [xtr xfr xh xl xk xph xpl xhd xld xkd xphd xpld xrt xst xsy
                 xorv xobr xlg xp xpls xpcs xbs].

(** Evaluate the methods on an opened object, keeping the tests on prices
    and the arithmetic folded. *)
Ltac unfold_py :=
  cbv beta iota zeta delta
    -[Py.lt Py.gt Py.nonzero record_line Qabs Qminus Qdiv Qplus Qopp Qmult
      Qinv Z.add Z.sub Z.ltb Z.of_nat andb app length In map] in *.

Lemma first_pos_nonneg ix d : 0 <= first_pos ix d.
Proof.
  induction ix as [|a ix IH]; cbn [first_pos]; [lia|].
  destruct (a =? d); lia.
Qed.

Lemma record_line_spec c s : line_spec c s (record_line c s).
Proof.
  open_swing s.
  unfold record_line, line_end_dt, get_loc, bind, get, raise, ret, modify.
  cbn.
  destruct xp; cbn; [|now constructor].
  destruct xfr as [frame|]; cbn.
  2:{ constructor; try easy. intros (f & d & Hf & _). discriminate Hf. }
  destruct xkd as [d|]; cbn.
  2:{ constructor; try easy. intros (f & d & _ & _ & Hd & _).
      discriminate Hd. }
  destruct (count_occ Z.eq_dec (map bar_dt frame) d) as [|[|n]] eqn:Ec; cbn.
  - constructor; try easy. intros (f & d0 & Hf & _ & Hd & Hin).
    cbn in Hf, Hd. injection Hf as <-. injection Hd as <-.
    apply (count_occ_In Z.eq_dec) in Hin. lia.
  - destruct (nth_error _ _) as [z|] eqn:En; cbn.
    + match goal with
      | |- line_spec _ ?s0 _ => now apply (line_added c s0 z)
      end.
    + constructor; try easy. intros _.
      apply nth_error_None in En. rewrite length_map in En.
      assert (Hin : In d (map bar_dt frame))
        by (apply (count_occ_In Z.eq_dec); lia).
      assert (Hlen : (0 < length frame)%nat).
      { destruct frame; [contradiction | cbn; lia]. }
      pose proof (first_pos_nonneg (map bar_dt frame) d). lia.
  - destruct (nondecreasing _ || nonincreasing _); cbn.
    + destruct (nth_error _ _) as [z|] eqn:En; cbn.
      * match goal with
        | |- line_spec _ ?s0 _ => now apply (line_added c s0 z)
        end.
      * constructor; try easy. intros (f & d0 & Hf & Hnd & Hd & Hin).
        cbn in Hf, Hd. injection Hf as <-. injection Hd as <-.
        apply NoDup_count_occ' with (decA := Z.eq_dec) in Hin;
          [lia | exact Hnd].
    + constructor; try easy. intros (f & d0 & Hf & Hnd & Hd & Hin).
      cbn in Hf, Hd. injection Hf as <-. injection Hd as <-.
      apply NoDup_count_occ' with (decA := Z.eq_dec) in Hin;
        [lia | exact Hnd].
Qed.

Ltac line_cases :=
  match goal with
  | |- context [record_line ?c ?x] =>
      let d := fresh "d" in
      let e := fresh "e" in
      destruct (record_line_spec c x) as [? | d ? ? | e ? ? ? ?]
  end.

Ltac use_hyp :=
  match goal with
  | H : ?b = true |- context [if ?b then _ else _] => rewrite H
  | H : ?b = false |- context [if ?b then _ else _] => rewrite H
  end.

Ltac split_if :=
  match goal with
  | |- context [if ?b then _ else _] => destruct b eqn:?
  | |- context [match ?o with Some _ => _ | None => _ end] =>
      destruct o eqn:?
  end.

Ltac tidy :=
  cbv beta iota in *;
  repeat
    (progress
       rewrite ?Py_gt_irrefl, ?Py_lt_irrefl, ?andb_false_r, ?andb_true_r;
     cbv beta iota in *).

Ltac run_py := tidy; repeat (first [use_hyp | split_if | line_cases]; tidy).

(** ** The structural invariant *)

Ltac close_inv := intros ->; unfold inv; cbn; repeat split; intros; congruence.

Lemma inv_unset s :
  inv s -> trend s = None -> coc s = None /\ sph s = None /\ spl s = None.
Proof. intros (_ & _ & H). exact H. Qed.

Lemma inv_up s : inv s -> trend s = Some UP -> spl s = None.
Proof.
  intros (_ & H & _) Ht. destruct (spl s); [|reflexivity].
  assert (trend s = Some DOWN) by (apply H; congruence). congruence.
Qed.

Lemma inv_down s : inv s -> trend s = Some DOWN -> sph s = None.
Proof.
  intros (H & _ & _) Ht. destruct (sph s); [|reflexivity].
  assert (trend s = Some UP) by (apply H; congruence). congruence.
Qed.

Lemma identify_unset_inv dt hi lo cl s :
  trend s = None -> inv s -> inv (final (identify_unset dt hi lo cl s)).
Proof.
  intros Ht Hi. destruct (inv_unset s Hi Ht) as (Hk & Hh & Hl). clear Hi.
  remember (identify_unset dt hi lo cl s) as r eqn:E. revert E.
  open_swing s. cbn in *. subst. unfold_py. run_py.
  all: close_inv.
Qed.

Lemma identify_up_inv dt hi lo cl s :
  trend s = Some UP -> inv s -> inv (final (identify_up dt hi lo cl s)).
Proof.
  intros Ht Hi. pose proof (inv_up s Hi Ht) as Hl. clear Hi.
  remember (identify_up dt hi lo cl s) as r eqn:E. revert E.
  open_swing s. cbn in *. subst. unfold_py. run_py.
  all: close_inv.
Qed.

Lemma identify_down_inv dt hi lo cl s :
  trend s = Some DOWN -> inv s -> inv (final (identify_down dt hi lo cl s)).
Proof.
  intros Ht Hi. pose proof (inv_down s Hi Ht) as Hl. clear Hi.
  remember (identify_down dt hi lo cl s) as r eqn:E. revert E.
  open_swing s. cbn in *. subst. unfold_py. run_py.
  all: close_inv.
Qed.

Lemma bind_get {B : Type} (k : Swing -> M B) s : bind get k s = k s s.
Proof. unfold bind, get. destruct (k s s); reflexivity. Qed.

Lemma identify_by_trend dt hi lo cl s :
  identify dt hi lo cl s =
  match trend s with
  | None => identify_unset dt hi lo cl s
  | Some UP => identify_up dt hi lo cl s
  | Some DOWN => identify_down dt hi lo cl s
  end.
Proof.
  unfold identify. rewrite bind_get. destruct (trend s) as [[]|]; reflexivity.
Qed.

Lemma identify_inv dt hi lo cl s :
  inv s -> inv (final (identify dt hi lo cl s)).
Proof.
  intros Hi. rewrite identify_by_trend.
  destruct (trend s) as [[]|] eqn:Ht.
  - now apply identify_up_inv.
  - now apply identify_down_inv.
  - now apply identify_unset_inv.
Qed.

Lemma reset_inv s : inv (final (reset s)).
Proof.
  open_swing s. unfold_py. cbn. destruct xp; cbn;
    unfold inv; cbn; repeat split; intros; congruence.
Qed.

Lemma bind_final_inv {A B : Type} (m : M A) (k : A -> M B) s :
  inv (final (m s)) ->
  (forall a s', inv s' -> inv (final (k a s'))) ->
  inv (final (bind m k s)).
Proof.
  intros Hm Hk. unfold bind.
  destruct (m s) as [s1 c1 [a|e]]; cbn in *; [|exact Hm].
  specialize (Hk a s1 Hm). destruct (k a s1) as [s2 c2 v]. exact Hk.
Qed.

Lemma identify_all_inv rows s :
  inv s -> inv (final (identify_all rows s)).
Proof.
  revert s. induction rows as [|t rest IH]; intros s Hi; cbn; [exact Hi|].
  apply bind_final_inv; [now apply identify_inv|].
  intros _ s' Hs'. now apply IH.
Qed.

Lemma run_inv sym frame lines s :
  inv s -> inv (final (run sym frame lines s)).
Proof.
  intros Hi. unfold run.
  apply bind_final_inv; [exact Hi|]. intros _ s1 H1.
  apply bind_final_inv; [|intros _ s2 H2; now apply identify_all_inv].
  destruct lines; cbn; exact H1.
Qed.

(** C5.  In every object reachable from a constructed engine, [sph] is set
    only when the trend is [UP], [spl] only when it is [DOWN], and while
    there is no trend [coc], [sph] and [spl] are all unset. *)
Theorem reachable_inv s : reachable s -> inv s.
Proof.
  induction 1.
  - unfold inv, init; cbn. repeat split; intros; congruence.
  - now apply identify_inv.
  - apply reset_inv.
  - now apply run_inv.
  - exact IHreachable.
  - exact IHreachable.
Qed.

Lemma reachable_inv_witness :
  inv (final (identify 1 12 9 11 (final (identify 0 10 8 9 default)))).
Proof.
  apply reachable_inv. unfold default.
  apply reach_identify, reach_identify, reach_init.
Defined.

(** ** [pack] and [unpack] *)

(** Each attribute is read back from the attribute dictionary. *)
Ltac read_back s :=
  open_swing s; cbn [trend df high low coc sph spl high_dt low_dt coc_dt
    sph_dt spl_dt retrace_threshold sideways_threshold symbol on_reversal
    on_breakout logger plot plot_lines plot_colors bars_since];
  match goal with |- _ = Some ?x => destruct x end;
  vm_compute; reflexivity.

Lemma read_trend s : Dec.trend (attrs s) "trend" = Some (trend s).
Proof.
  open_swing s. destruct xtr as [[]|]; vm_compute; reflexivity.
Qed.

Lemma read_df s : Dec.frame (attrs s) "df" = Some (df s).
Proof. read_back s. Qed.

Lemma read_high s : Dec.price (attrs s) "high" = Some (high s).
Proof. read_back s. Qed.

Lemma read_low s : Dec.price (attrs s) "low" = Some (low s).
Proof. read_back s. Qed.

Lemma read_coc s : Dec.price (attrs s) "coc" = Some (coc s).
Proof. read_back s. Qed.

Lemma read_sph s : Dec.price (attrs s) "sph" = Some (sph s).
Proof. read_back s. Qed.

Lemma read_spl s : Dec.price (attrs s) "spl" = Some (spl s).
Proof. read_back s. Qed.

Lemma read_high_dt s : Dec.date (attrs s) "high_dt" = Some (high_dt s).
Proof. read_back s. Qed.

Lemma read_low_dt s : Dec.date (attrs s) "low_dt" = Some (low_dt s).
Proof. read_back s. Qed.

Lemma read_coc_dt s : Dec.date (attrs s) "coc_dt" = Some (coc_dt s).
Proof. read_back s. Qed.

Lemma read_sph_dt s : Dec.date (attrs s) "sph_dt" = Some (sph_dt s).
Proof. read_back s. Qed.

Lemma read_spl_dt s : Dec.date (attrs s) "spl_dt" = Some (spl_dt s).
Proof. read_back s. Qed.

Lemma read_retrace_threshold s : Dec.price (attrs s) "retrace_threshold" = Some (retrace_threshold s).
Proof. read_back s. Qed.

Lemma read_sideways_threshold s : Dec.int (attrs s) "sideways_threshold" = Some (sideways_threshold s).
Proof. open_swing s. vm_compute. reflexivity. Qed.

Lemma read_symbol s : Dec.text (attrs s) "symbol" = Some (symbol s).
Proof. read_back s. Qed.

Lemma read_on_reversal s : Dec.callable (attrs s) "on_reversal" = Some (on_reversal s).
Proof. read_back s. Qed.

Lemma read_on_breakout s : Dec.callable (attrs s) "on_breakout" = Some (on_breakout s).
Proof. read_back s. Qed.

Lemma read_logger s : Dec.log (attrs s) "logger" = Some (logger s).
Proof. open_swing s. vm_compute. reflexivity. Qed.

Lemma read_plot s : Dec.flag (attrs s) "plot" = Some (plot s).
Proof. open_swing s. vm_compute. reflexivity. Qed.

Lemma read_plot_lines s : Dec.lines (attrs s) "plot_lines" = Some (plot_lines s).
Proof. open_swing s. vm_compute. reflexivity. Qed.

Lemma read_plot_colors s : Dec.colors (attrs s) "plot_colors" = Some (plot_colors s).
Proof. open_swing s. vm_compute. reflexivity. Qed.

Lemma read_bars_since s : Dec.int (attrs s) "_Swing__bars_since" = Some (bars_since s).
Proof. open_swing s. vm_compute. reflexivity. Qed.

Lemma of_attrs_attrs s : of_attrs (attrs s) = Some s.
Proof.
  unfold of_attrs.
  rewrite read_trend, read_df, read_high, read_low, read_coc, read_sph,
    read_spl, read_high_dt, read_low_dt, read_coc_dt, read_sph_dt, read_spl_dt,
    read_retrace_threshold, read_sideways_threshold, read_symbol, read_on_reversal, read_on_breakout,
    read_logger, read_plot, read_plot_lines, read_plot_colors, read_bars_since.
  cbn. destruct s; reflexivity.
Qed.

Lemma pack_below_attrs s : pack s ∪ attrs s = attrs s.
Proof.
  apply map_subseteq_union. unfold pack.
  etransitivity; [apply delete_subseteq|].
  etransitivity; [apply delete_subseteq|].
  apply delete_subseteq.
Qed.

Lemma unpack_pack s : unpack (pack s) s = Some s.
Proof. unfold unpack. rewrite pack_below_attrs. apply of_attrs_attrs. Qed.

(** C4.  Restoring an object from its own snapshot changes nothing: the
    bars that follow leave the same object, invoke the same callbacks and
    end the same way as without the round trip. *)
Theorem unpack_pack_noop s rows :
  exists s',
    unpack (pack s) s = Some s' /\
    identify_all rows s' = identify_all rows s /\
    is_sideways s' = is_sideways s.
Proof.
  exists s. split; [apply unpack_pack|]. split; reflexivity.
Qed.

(** ** Bars that leave a pending pivot in place *)

Ltac start_py s r :=
  let E := fresh "E" in
  match goal with
  | |- context [identify_up ?dt ?hi ?lo ?cl s] =>
      remember (identify_up dt hi lo cl s) as r eqn:E
  | |- context [identify_down ?dt ?hi ?lo ?cl s] =>
      remember (identify_down dt hi lo cl s) as r eqn:E
  | |- context [identify_unset ?dt ?hi ?lo ?cl s] =>
      remember (identify_unset dt hi lo cl s) as r eqn:E
  end;
  revert E; open_swing s; cbn in *; subst; unfold_py.

Lemma quiet_step_up dt hi lo cl s p :
  trend s = Some UP -> sph s = Some p -> Py.nonzero p = true ->
  Py.gt cl p = false ->
  Py.and_then (coc s) (fun x => Py.lt cl x) = false ->
  let r := identify dt hi lo cl s in
  value r = Returned tt /\ calls r = [] /\
  trend (final r) = Some UP /\ sph (final r) = Some p /\
  coc (final r) = coc s /\
  bars_since (final r) = bars_since s + 1 /\
  sideways_threshold (final r) = sideways_threshold s.
Proof.
  intros Ht Hp Hnz Hgt Hk. rewrite identify_by_trend, Ht. cbv zeta.
  start_py s r. run_py.
  all: intros ->; cbn; try (repeat split; congruence).
Qed.

Lemma quiet_step_down dt hi lo cl s p :
  trend s = Some DOWN -> spl s = Some p -> Py.nonzero p = true ->
  Py.lt cl p = false ->
  Py.and_then (coc s) (fun x => Py.gt cl x) = false ->
  let r := identify dt hi lo cl s in
  value r = Returned tt /\ calls r = [] /\
  trend (final r) = Some DOWN /\ spl (final r) = Some p /\
  coc (final r) = coc s /\
  bars_since (final r) = bars_since s + 1 /\
  sideways_threshold (final r) = sideways_threshold s.
Proof.
  intros Ht Hp Hnz Hgt Hk. rewrite identify_by_trend, Ht. cbv zeta.
  start_py s r. run_py.
  all: intros ->; cbn; try (repeat split; congruence).
Qed.

Lemma bind_returned {A B : Type} (m : M A) (k : A -> M B) s s1 a :
  m s = MkRes s1 [] (Returned a) -> bind m k s = k a s1.
Proof.
  intros E. unfold bind. rewrite E. destruct (k a s1); reflexivity.
Qed.

Lemma quiet_step t dt hi lo cl s p :
  trend s = Some t -> pivot t s = Some p -> Py.nonzero p = true ->
  quiet t p (coc s) (bar dt hi lo cl) = true ->
  let r := identify dt hi lo cl s in
  r = MkRes (final r) [] (Returned tt) /\
  trend (final r) = Some t /\ pivot t (final r) = Some p /\
  coc (final r) = coc s /\
  bars_since (final r) = bars_since s + 1 /\
  sideways_threshold (final r) = sideways_threshold s.
Proof.
  intros Ht Hp Hnz Hq. unfold quiet in Hq. cbn [bar_close bar] in Hq.
  destruct t; apply andb_true_iff in Hq as [H1 H2];
    apply negb_true_iff in H1, H2; cbn [pivot] in *.
  - destruct (quiet_step_up dt hi lo cl s p Ht Hp Hnz H1 H2)
      as (Hv & Hc & Hrest).
    split; [|exact Hrest].
    destruct (identify dt hi lo cl s) as [s' c' v']; cbn in *. congruence.
  - destruct (quiet_step_down dt hi lo cl s p Ht Hp Hnz H1 H2)
      as (Hv & Hc & Hrest).
    split; [|exact Hrest].
    destruct (identify dt hi lo cl s) as [s' c' v']; cbn in *. congruence.
Qed.


(** ** [is_sideways] *)





(** ** The bar counter *)

Lemma breakout_up_effect dt hi lo cl s p :
  trend s = Some UP -> sph s = Some p -> Py.nonzero p = true ->
  Py.gt cl p = true ->
  let r := identify dt hi lo cl s in
  bars_since (final r) = 0 /\ sph (final r) = None /\
  spl (final r) = spl s /\ trend (final r) = Some UP /\
  high (final r) = high (final (pending_up dt hi lo s)) /\
  low (final r) = low (final (pending_up dt hi lo s)) /\
  forallb is_breakout (calls r) = true.
Proof.
  intros Ht Hp Hnz Hgt. rewrite identify_by_trend, Ht. cbv zeta.
  start_py s r. run_py.
  all: intros ->; cbn; try (repeat split; congruence).
Qed.

Lemma breakout_down_effect dt hi lo cl s p :
  trend s = Some DOWN -> spl s = Some p -> Py.nonzero p = true ->
  Py.lt cl p = true ->
  let r := identify dt hi lo cl s in
  bars_since (final r) = 0 /\ spl (final r) = None /\
  sph (final r) = sph s /\ trend (final r) = Some DOWN /\
  high (final r) = high (final (pending_down dt hi lo s)) /\
  low (final r) = low (final (pending_down dt hi lo s)) /\
  forallb is_breakout (calls r) = true.
Proof.
  intros Ht Hp Hnz Hgt. rewrite identify_by_trend, Ht. cbv zeta.
  start_py s r. run_py.
  all: intros ->; cbn; try (repeat split; congruence).
Qed.

Lemma reversal_resets_up dt hi lo cl s :
  trend s = Some UP ->
  let r := identify dt hi lo cl s in
  trend (final r) = Some DOWN -> bars_since (final r) = 0.
Proof.
  intros Ht. rewrite identify_by_trend, Ht. cbv zeta.
  start_py s r. run_py.
  all: intros ->; cbn; congruence.
Qed.

Lemma reversal_resets_down dt hi lo cl s :
  trend s = Some DOWN ->
  let r := identify dt hi lo cl s in
  trend (final r) = Some UP -> bars_since (final r) = 0.
Proof.
  intros Ht. rewrite identify_by_trend, Ht. cbv zeta.
  start_py s r. run_py.
  all: intros ->; cbn; congruence.
Qed.

Lemma pivot_forms_up dt hi lo cl s :
  trend s = Some UP -> sph s = None ->
  let r := identify dt hi lo cl s in
  sph (final r) <> None ->
  bars_since (final r) = 1 /\ sph (final r) = high s /\
  trend (final r) = Some UP.
Proof.
  intros Ht Hp. rewrite identify_by_trend, Ht. cbv zeta.
  start_py s r. run_py.
  all: intros ->; cbn; try congruence; try (repeat split; congruence).
Qed.

Lemma pivot_forms_down dt hi lo cl s :
  trend s = Some DOWN -> spl s = None ->
  let r := identify dt hi lo cl s in
  spl (final r) <> None ->
  bars_since (final r) = 1 /\ spl (final r) = low s /\
  trend (final r) = Some DOWN.
Proof.
  intros Ht Hp. rewrite identify_by_trend, Ht. cbv zeta.
  start_py s r. run_py.
  all: intros ->; cbn; try congruence; try (repeat split; congruence).
Qed.

(** C3, as the code has it.  After a bar that closes beyond the pending
    pivot, and after a bar on which the trend reverses, the counter is 0.
    The bar on which a new pivot forms is counted: the counter is 1 after
    it.  A bar that finds a pivot pending and closes neither beyond it nor
    beyond the reversal level adds exactly one. *)
Theorem bars_since_counter dt hi lo cl s :
  let r := identify dt hi lo cl s in
  (forall p, trend s = Some UP -> sph s = Some p -> Py.nonzero p = true ->
             Py.gt cl p = true -> bars_since (final r) = 0) /\
  (forall p, trend s = Some DOWN -> spl s = Some p -> Py.nonzero p = true ->
             Py.lt cl p = true -> bars_since (final r) = 0) /\
  (trend s = Some UP -> trend (final r) = Some DOWN ->
   bars_since (final r) = 0) /\
  (trend s = Some DOWN -> trend (final r) = Some UP ->
   bars_since (final r) = 0) /\
  (trend s = Some UP -> sph s = None -> sph (final r) <> None ->
   bars_since (final r) = 1) /\
  (trend s = Some DOWN -> spl s = None -> spl (final r) <> None ->
   bars_since (final r) = 1) /\
  (forall t p, trend s = Some t -> pivot t s = Some p ->
               Py.nonzero p = true ->
               quiet t p (coc s) (bar dt hi lo cl) = true ->
               bars_since (final r) = bars_since s + 1).
Proof.
  cbv zeta. repeat apply conj.
  - intros p Ht Hp Hnz Hb. now apply (breakout_up_effect dt hi lo cl s p).
  - intros p Ht Hp Hnz Hb. now apply (breakout_down_effect dt hi lo cl s p).
  - exact (reversal_resets_up dt hi lo cl s).
  - exact (reversal_resets_down dt hi lo cl s).
  - intros Ht Hp Hn. now apply (pivot_forms_up dt hi lo cl s).
  - intros Ht Hp Hn. now apply (pivot_forms_down dt hi lo cl s).
  - intros t p Ht Hp Hnz Hq.
    now apply (quiet_step t dt hi lo cl s p).
Qed.

Lemma bars_since_counter_witness :
  bars_since (final (identify 3 13 10 (25 # 2) up_pending)) = 0 /\
  bars_since (final (identify 3 8 5 (11 # 2) down_pending)) = 0 /\
  bars_since (final (identify 2 11 7 (15 # 2) up_started)) = 0 /\
  bars_since (final (identify 2 11 7 (21 # 2) down_started)) = 0 /\
  bars_since (final (identify 2 11 9 10 up_started)) = 1 /\
  bars_since (final (identify 2 9 7 8 down_started)) = 1 /\
  bars_since (final (identify 3 11 9 10 up_pending)) =
    bars_since up_pending + 1.
Proof.
  repeat apply conj.
  - destruct (bars_since_counter 3 13 10 (25 # 2) up_pending)
      as (H & _).
    apply (H 12%Q); vm_compute; reflexivity.
  - destruct (bars_since_counter 3 8 5 (11 # 2) down_pending)
      as (_ & H & _).
    apply (H 6%Q); vm_compute; reflexivity.
  - destruct (bars_since_counter 2 11 7 (15 # 2) up_started)
      as (_ & _ & H & _).
    apply H; vm_compute; reflexivity.
  - destruct (bars_since_counter 2 11 7 (21 # 2) down_started)
      as (_ & _ & _ & H & _).
    apply H; vm_compute; reflexivity.
  - destruct (bars_since_counter 2 11 9 10 up_started)
      as (_ & _ & _ & _ & H & _).
    apply H; vm_compute; congruence.
  - destruct (bars_since_counter 2 9 7 8 down_started)
      as (_ & _ & _ & _ & _ & H & _).
    apply H; vm_compute; congruence.
  - destruct (bars_since_counter 3 11 9 10 up_pending)
      as (_ & _ & _ & _ & _ & _ & H).
    apply (H UP 12%Q); vm_compute; reflexivity.
Defined.

(** C3 as stated fails on the bar that forms a pivot: with the trend [UP],
    the high 12 tracked and no pivot pending, the bar (11, 9, 10) makes no
    new high, so [sph] becomes 12, and the counter is then 1, not 0. *)
Lemma pivot_bar_counter_counterexample :
  let r := identify 2 11 9 10 up_started in
  trend up_started = Some UP /\ sph up_started = None /\
  high up_started = Some 12%Q /\
  value r = Returned tt /\ calls r = [] /\
  trend (final r) = Some UP /\ sph (final r) = Some 12%Q /\
  bars_since (final r) = 1 /\ bars_since (final r) <> 0.
Proof.
  vm_compute. repeat split; try reflexivity. discriminate.
Qed.

(** ** Reversals *)

Ltac finish :=
  first [ congruence
        | contradiction
        | repeat first [apply conj | intro];
          first [congruence | reflexivity | contradiction] ].

Ltac is_test b :=
  lazymatch b with
  | Py.lt _ _ => idtac
  | Py.gt _ _ => idtac
  | Py.nonzero _ => idtac
  | andb _ _ => idtac
  end.

Ltac leaf_norm := unfold_py; cbn [app andb negb] in *.

Ltac close_by_hyps :=
  leaf_norm;
  first
    [ finish
    | repeat match goal with
             | H : ?a = ?a -> _ |- _ => specialize (H eq_refl)
             | H : ?b = _ |- context [?b] => is_test b; rewrite H
             | H : ?b = _, H' : context [?b] |- _ =>
                 is_test b; rewrite H in H'
             end;
      leaf_norm; subst; finish ].

Lemma reversal_up dt hi lo cl s c :
  trend s = Some UP -> coc s = Some c -> Py.nonzero c = true ->
  Py.lt cl c = true ->
  Py.and_then (sph s) (fun p => Py.gt cl p) = false ->
  (Py.truthy (sph s) = false ->
   Py.and_then (high s) (fun x => Py.gt hi x) = false) ->
  let r := identify dt hi lo cl s in
  let top := stretched_high_up s hi in
  trend (final r) = Some DOWN /\ coc (final r) = top /\
  high (final r) = None /\ sph (final r) = None /\
  low (final r) = Some lo /\ bars_since (final r) = 0 /\
  (value r = Returned tt ->
   calls r =
   notify (on_reversal s) (Reversal (symbol s) dt (Some DOWN) cl top c)) /\
  (value r <> Returned tt -> calls r = []) /\
  (plot s = false -> value r = Returned tt).
Proof.
  intros Ht Hk Hnz Hlt Hb Hf. rewrite identify_by_trend, Ht. cbv zeta.
  start_py s r. run_py.
  all: intros ->; close_by_hyps.
Qed.

Lemma reversal_down dt hi lo cl s c :
  trend s = Some DOWN -> coc s = Some c -> Py.nonzero c = true ->
  Py.gt cl c = true ->
  Py.and_then (spl s) (fun p => Py.lt cl p) = false ->
  (Py.truthy (spl s) = false ->
   Py.and_then (low s) (fun x => Py.lt lo x) = false) ->
  let r := identify dt hi lo cl s in
  let bottom := stretched_low_down s lo in
  trend (final r) = Some UP /\ coc (final r) = bottom /\
  low (final r) = None /\ spl (final r) = None /\
  high (final r) = Some hi /\ bars_since (final r) = 0 /\
  (value r = Returned tt ->
   calls r =
   notify (on_reversal s) (Reversal (symbol s) dt (Some UP) cl bottom c)) /\
  (value r <> Returned tt -> calls r = []) /\
  (plot s = false -> value r = Returned tt).
Proof.
  intros Ht Hk Hnz Hlt Hb Hf. rewrite identify_by_trend, Ht. cbv zeta.
  start_py s r. run_py.
  all: intros ->; close_by_hyps.
Qed.

(** C1, as the code has it.  In an [UP] trend with a non-zero [coc], a bar
    that closes below [coc], does not close above a pending pivot and, when
    no pivot is pending, makes no new high, switches the trend to [DOWN]:
    the new [coc] is the tracked high, [high] and [sph] are cleared, [low]
    is this bar's low and the counter is 0.  When the call returns, a
    registered [on_reversal] has been invoked once, with the NEW [coc] as
    fifth argument and the old [coc] (the broken level) as sixth; it
    returns whenever line recording is off.  Symmetrically for [DOWN]. *)
Theorem reversal_switches_trend :
  (forall dt hi lo cl s c,
     trend s = Some UP -> coc s = Some c -> Py.nonzero c = true ->
     Py.lt cl c = true ->
     Py.and_then (sph s) (fun p => Py.gt cl p) = false ->
     (Py.truthy (sph s) = false ->
      Py.and_then (high s) (fun x => Py.gt hi x) = false) ->
     let r := identify dt hi lo cl s in
     let top := stretched_high_up s hi in
     trend (final r) = Some DOWN /\ coc (final r) = top /\
     high (final r) = None /\ sph (final r) = None /\
     low (final r) = Some lo /\ bars_since (final r) = 0 /\
     (value r = Returned tt ->
      calls r =
      notify (on_reversal s) (Reversal (symbol s) dt (Some DOWN) cl top c)) /\
     (value r <> Returned tt -> calls r = []) /\
     (plot s = false -> value r = Returned tt)) /\
  (forall dt hi lo cl s c,
     trend s = Some DOWN -> coc s = Some c -> Py.nonzero c = true ->
     Py.gt cl c = true ->
     Py.and_then (spl s) (fun p => Py.lt cl p) = false ->
     (Py.truthy (spl s) = false ->
      Py.and_then (low s) (fun x => Py.lt lo x) = false) ->
     let r := identify dt hi lo cl s in
     let bottom := stretched_low_down s lo in
     trend (final r) = Some UP /\ coc (final r) = bottom /\
     low (final r) = None /\ spl (final r) = None /\
     high (final r) = Some hi /\ bars_since (final r) = 0 /\
     (value r = Returned tt ->
      calls r =
      notify (on_reversal s) (Reversal (symbol s) dt (Some UP) cl bottom c)) /\
     (value r <> Returned tt -> calls r = []) /\
     (plot s = false -> value r = Returned tt)).
Proof.
  split.
  - exact reversal_up.
  - exact reversal_down.
Qed.

Lemma reversal_switches_trend_witness :
  (let s := set_on_reversal (Some 1%nat) up_pending in
   let r := identify 3 (25 # 2) 7 (15 # 2) s in
   trend (final r) = Some DOWN /\ coc (final r) = Some (25 # 2)%Q /\
   calls r =
   [Reversal None 3 (Some DOWN) (15 # 2) (Some (25 # 2)%Q) 8]) /\
  (let s := set_on_reversal (Some 1%nat) down_pending in
   let r := identify 3 11 (11 # 2) (21 # 2) s in
   trend (final r) = Some UP /\ coc (final r) = Some (11 # 2)%Q /\
   calls r =
   [Reversal None 3 (Some UP) (21 # 2) (Some (11 # 2)%Q) 10]).
Proof.
  destruct reversal_switches_trend as [Hup Hdown]. split.
  - intros s r.
    assert (P1 : trend s = Some UP) by (vm_compute; reflexivity).
    assert (P2 : coc s = Some 8%Q) by (vm_compute; reflexivity).
    assert (P3 : Py.and_then (sph s) (fun p => Py.gt (15 # 2) p) = false)
      by (vm_compute; reflexivity).
    assert (P4 : Py.truthy (sph s) = false ->
                 Py.and_then (high s) (fun x => Py.gt (25 # 2) x) = false)
      by (intros H; vm_compute in H; discriminate H).
    destruct (Hup 3 (25 # 2)%Q 7%Q (15 # 2)%Q s 8%Q P1 P2 eq_refl eq_refl
                P3 P4)
      as (H1 & H2 & _ & _ & _ & _ & H7 & _).
    refine (conj H1 (conj H2 _)).
    apply H7. vm_compute. reflexivity.
  - intros s r.
    assert (P1 : trend s = Some DOWN) by (vm_compute; reflexivity).
    assert (P2 : coc s = Some 10%Q) by (vm_compute; reflexivity).
    assert (P3 : Py.and_then (spl s) (fun p => Py.lt (21 # 2) p) = false)
      by (vm_compute; reflexivity).
    assert (P4 : Py.truthy (spl s) = false ->
                 Py.and_then (low s) (fun x => Py.lt (11 # 2) x) = false)
      by (intros H; vm_compute in H; discriminate H).
    destruct (Hdown 3 11%Q (11 # 2)%Q (21 # 2)%Q s 10%Q P1 P2 eq_refl
                eq_refl P3 P4)
      as (H1 & H2 & _ & _ & _ & _ & H7 & _).
    refine (conj H1 (conj H2 _)).
    apply H7. vm_compute. reflexivity.
Defined.

(** C1 as stated fails twice.  With [coc = 8] and the high 12 tracked, the
    bar (11, 7, 7.5) reverses the trend and [on_reversal] receives 12, the
    new [coc], as fifth argument, not the old [coc] 8.  And the bar
    (13, 7, 7.5), which closes below [coc] but makes a new high, does not
    reverse the trend at all. *)
Lemma reversal_claim_counterexample :
  let s := set_on_reversal (Some 1%nat) up_started in
  trend s = Some UP /\ coc s = Some 8%Q /\ sph s = None /\
  high s = Some 12%Q /\
  calls (identify 2 11 7 (15 # 2) s) =
    [Reversal None 2 (Some DOWN) (15 # 2) (Some 12%Q) 8] /\
  Some 12%Q <> coc s /\
  value (identify 2 13 7 (15 # 2) s) = Returned tt /\
  trend (final (identify 2 13 7 (15 # 2) s)) = Some UP /\
  coc (final (identify 2 13 7 (15 # 2) s)) = Some 8%Q /\
  calls (identify 2 13 7 (15 # 2) s) = [].
Proof.
  vm_compute. repeat apply conj; try reflexivity. discriminate.
Qed.

(** ** Breakout bars end the processing of the bar *)

Lemma identify_up_pending dt hi lo cl s p :
  trend s = Some UP -> sph s = Some p -> Py.nonzero p = true ->
  identify dt hi lo cl s =
  (pending_up dt hi lo ;;
   if Py.gt cl p then breakout_up dt cl p else formation_up dt hi lo cl) s.
Proof.
  intros Ht Hp Hnz. rewrite identify_by_trend, Ht. unfold identify_up.
  rewrite bind_get, Hp, Hnz. reflexivity.
Qed.

Lemma identify_down_pending dt hi lo cl s p :
  trend s = Some DOWN -> spl s = Some p -> Py.nonzero p = true ->
  identify dt hi lo cl s =
  (pending_down dt hi lo ;;
   if Py.lt cl p then breakout_down dt cl p else formation_down dt hi lo cl)
    s.
Proof.
  intros Ht Hp Hnz. rewrite identify_by_trend, Ht. unfold identify_down.
  rewrite bind_get, Hp, Hnz. reflexivity.
Qed.

(** C6.  With a pivot pending, a bar that closes beyond it is handled by
    the breakout code alone: no pivot is pending afterwards, the trend is
    the same, the tracked extremes are those the pending-pivot block left,
    the counter is 0 and only [on_breakout] can have been called, whether
    or not the retracement filter let the breakout pass.  A bar that does
    not close beyond the pivot goes on to the formation and reversal
    code. *)
Theorem breakout_is_terminal :
  (forall dt hi lo cl s p,
     trend s = Some UP -> sph s = Some p -> Py.nonzero p = true ->
     let r := identify dt hi lo cl s in
     let s1 := final (pending_up dt hi lo s) in
     (Py.gt cl p = true ->
      r = (pending_up dt hi lo ;; breakout_up dt cl p) s /\
      sph (final r) = None /\ spl (final r) = spl s /\
      trend (final r) = Some UP /\
      high (final r) = high s1 /\ low (final r) = low s1 /\
      bars_since (final r) = 0 /\
      forallb is_breakout (calls r) = true) /\
     (Py.gt cl p = false ->
      r = (pending_up dt hi lo ;; formation_up dt hi lo cl) s)) /\
  (forall dt hi lo cl s p,
     trend s = Some DOWN -> spl s = Some p -> Py.nonzero p = true ->
     let r := identify dt hi lo cl s in
     let s1 := final (pending_down dt hi lo s) in
     (Py.lt cl p = true ->
      r = (pending_down dt hi lo ;; breakout_down dt cl p) s /\
      spl (final r) = None /\ sph (final r) = sph s /\
      trend (final r) = Some DOWN /\
      high (final r) = high s1 /\ low (final r) = low s1 /\
      bars_since (final r) = 0 /\
      forallb is_breakout (calls r) = true) /\
     (Py.lt cl p = false ->
      r = (pending_down dt hi lo ;; formation_down dt hi lo cl) s)).
Proof.
  split; intros dt hi lo cl s p Ht Hp Hnz; cbv zeta; split; intros Hb.
  - split.
    + rewrite (identify_up_pending dt hi lo cl s p Ht Hp Hnz), Hb.
      reflexivity.
    + destruct (breakout_up_effect dt hi lo cl s p Ht Hp Hnz Hb)
        as (H1 & H2 & H3 & H4 & H5 & H6 & H7).
      repeat apply conj; assumption.
  - rewrite (identify_up_pending dt hi lo cl s p Ht Hp Hnz), Hb.
    reflexivity.
  - split.
    + rewrite (identify_down_pending dt hi lo cl s p Ht Hp Hnz), Hb.
      reflexivity.
    + destruct (breakout_down_effect dt hi lo cl s p Ht Hp Hnz Hb)
        as (H1 & H2 & H3 & H4 & H5 & H6 & H7).
      repeat apply conj; assumption.
  - rewrite (identify_down_pending dt hi lo cl s p Ht Hp Hnz), Hb.
    reflexivity.
Qed.

Lemma breakout_is_terminal_witness :
  (let r := identify 3 13 10 (25 # 2) up_pending in
   sph (final r) = None /\ trend (final r) = Some UP /\
   bars_since (final r) = 0) /\
  identify 3 11 9 10 up_pending =
    (pending_up 3 11 9 ;; formation_up 3 11 9 10) up_pending /\
  (let r := identify 3 8 5 (11 # 2) down_pending in
   spl (final r) = None /\ trend (final r) = Some DOWN /\
   bars_since (final r) = 0) /\
  identify 3 8 7 (15 # 2) down_pending =
    (pending_down 3 8 7 ;; formation_down 3 8 7 (15 # 2)) down_pending.
Proof.
  destruct breakout_is_terminal as [Hup Hdown].
  assert (Tu : trend up_pending = Some UP) by (vm_compute; reflexivity).
  assert (Pu : sph up_pending = Some 12%Q) by (vm_compute; reflexivity).
  assert (Td : trend down_pending = Some DOWN) by (vm_compute; reflexivity).
  assert (Pd : spl down_pending = Some 6%Q) by (vm_compute; reflexivity).
  refine (conj _ (conj _ (conj _ _))).
  - destruct (Hup 3 13%Q 10%Q (25 # 2)%Q up_pending 12%Q Tu Pu eq_refl)
      as [H _].
    destruct (H eq_refl) as (_ & H2 & _ & H4 & _ & _ & H7 & _).
    repeat apply conj; assumption.
  - destruct (Hup 3 11%Q 9%Q 10%Q up_pending 12%Q Tu Pu eq_refl) as [_ H].
    exact (H eq_refl).
  - destruct (Hdown 3 8%Q 5%Q (11 # 2)%Q down_pending 6%Q Td Pd eq_refl)
      as [H _].
    destruct (H eq_refl) as (_ & H2 & _ & H4 & _ & _ & H7 & _).
    repeat apply conj; assumption.
  - destruct (Hdown 3 8%Q 7%Q (15 # 2)%Q down_pending 6%Q Td Pd eq_refl)
      as [_ H].
    exact (H eq_refl).
Defined.

(** ** Levels that are exactly zero *)
















(** ** The retracement filter *)





(** C2 fails in the [DOWN] branch, which compares the signed fraction and
    not its magnitude.  An engine with the default 5% threshold is fed a
    decline in negative prices; the pivot [spl = -14] forms and the fourth
    bar closes below it after a tracked high of -12.  The retracement
    fraction is [(-12 + 14) / -14 = -1/7], of magnitude above 5%, and yet
    the breakout is dropped: [coc] stays and [on_breakout] is not called. *)
Theorem down_filter_ignores_magnitude :
  let s0 := set_on_breakout (Some 1%nat) default in
  let s3 :=
    final (identify_all [bar 0 (-10) (-12) (-11); bar 1 (-11) (-14) (-13);
                          bar 2 (-12) (-13) (-25 # 2)] s0) in
  let r := identify 3 (-13) (-16) (-15) s3 in
  trend s3 = Some DOWN /\ spl s3 = Some (-14)%Q /\ high s3 = Some (-12)%Q /\
  coc s3 = Some (-10)%Q /\
  Py.and_then (spl s3) (fun p => Py.lt (-15) p) = true /\
  Py.and_then (retrace_threshold s3) (fun t => Qeq_bool t (5 # 100)) = true /\
  Qeq_bool (retrace_down s3 (-13) (-14)) (-1 # 7) = true /\
  Py.lt (Qabs (retrace_down s3 (-13) (-14))) (5 # 100) = false /\
  value r = Returned tt /\ calls r = [] /\
  coc (final r) = coc s3 /\
  spl (final r) = None /\ bars_since (final r) = 0.
Proof.
  vm_compute. repeat apply conj; reflexivity.
Qed.

(** ** Line recording without a bound history *)








(** ** What [identify] leaves alone *)

Ltac close_frame :=
  intros ->; leaf_norm; repeat apply conj; try reflexivity;
  first
    [ left; split; reflexivity
    | right; repeat apply conj;
      [ assumption | assumption
      | eexists; eexists; split; reflexivity ] ].

Lemma identify_unset_frame dt hi lo cl s :
  frame_of s (final (identify_unset dt hi lo cl s)).
Proof.
  remember (identify_unset dt hi lo cl s) as r eqn:E. revert E.
  open_swing s. unfold frame_of. unfold_py. run_py.
  all: close_frame.
Qed.

Lemma identify_up_frame dt hi lo cl s :
  frame_of s (final (identify_up dt hi lo cl s)).
Proof.
  remember (identify_up dt hi lo cl s) as r eqn:E. revert E.
  open_swing s. unfold frame_of. unfold_py. run_py.
  all: close_frame.
Qed.

Lemma identify_down_frame dt hi lo cl s :
  frame_of s (final (identify_down dt hi lo cl s)).
Proof.
  remember (identify_down dt hi lo cl s) as r eqn:E. revert E.
  open_swing s. unfold frame_of. unfold_py. run_py.
  all: close_frame.
Qed.

Lemma identify_frame dt hi lo cl s :
  frame_of s (final (identify dt hi lo cl s)).
Proof.
  rewrite identify_by_trend. destruct (trend s) as [[]|].
  - apply identify_up_frame.
  - apply identify_down_frame.
  - apply identify_unset_frame.
Qed.

(** ** The recorded lines *)

Lemma bind_final {A B : Type} (P : Swing -> Prop) (m : M A) (k : A -> M B) s :
  P (final (m s)) ->
  (forall a s', P s' -> P (final (k a s'))) ->
  P (final (bind m k s)).
Proof.
  intros Hm Hk. unfold bind.
  destruct (m s) as [s1 c1 [a|e]]; cbn in *; [|exact Hm].
  specialize (Hk a s1 Hm). destruct (k a s1) as [s2 c2 v]. exact Hk.
Qed.

Lemma identify_lines_inv dt hi lo cl s :
  lines_inv s -> lines_inv (final (identify dt hi lo cl s)).
Proof.
  intros [Hlen Hoff].
  destruct (identify_frame dt hi lo cl s)
    as (_ & _ & _ & _ & _ & _ & _ & Hp & Hl).
  unfold lines_inv. rewrite Hp.
  destruct Hl as [[Hl Hc] | (Hon & _ & seg & c & Hl & Hc)].
  - rewrite Hl, Hc. split; assumption.
  - rewrite Hl, Hc, !length_app, Hlen. split; [reflexivity|].
    intros Hf. congruence.
Qed.

Lemma identify_all_lines_inv rows s :
  lines_inv s -> lines_inv (final (identify_all rows s)).
Proof.
  revert s. induction rows as [|t rest IH]; intros s Hi; cbn; [exact Hi|].
  apply (bind_final lines_inv); [now apply identify_lines_inv|].
  intros _ s' Hs'. now apply IH.
Qed.

Lemma reset_lines_inv s : lines_inv s -> lines_inv (final (reset s)).
Proof.
  intros [Hlen Hoff]. open_swing s. unfold lines_inv in *. unfold_py.
  destruct xp; unfold_py; split; auto.
Qed.

Lemma run_lines_inv sym frame lines s :
  lines_inv s -> lines_inv (final (run sym frame lines s)).
Proof.
  intros Hi. unfold run.
  apply (bind_final lines_inv).
  { destruct Hi as [Hlen Hoff]. open_swing s. unfold lines_inv in *.
    unfold_py. split; auto. }
  intros _ s1 H1.
  apply (bind_final lines_inv);
    [|intros _ s2 H2; now apply identify_all_lines_inv].
  destruct lines; [|exact H1].
  destruct H1 as [Hlen Hoff]. open_swing s1. unfold lines_inv in *.
  unfold_py. split; [reflexivity|]. intros Hf. discriminate Hf.
Qed.

Lemma reachable_lines_inv s : reachable s -> lines_inv s.
Proof.
  induction 1.
  - unfold lines_inv, init; cbn. split; [reflexivity|]. intros _. now split.
  - now apply identify_lines_inv.
  - now apply reset_lines_inv.
  - now apply run_lines_inv.
  - destruct IHreachable as [Hlen Hoff]. open_swing s.
    unfold lines_inv in *. unfold_py. split; auto.
  - destruct IHreachable as [Hlen Hoff]. open_swing s.
    unfold lines_inv in *. unfold_py. split; auto.
Qed.

(** ** [reset] *)

(** C8, as the code has it.  [reset] returns; it sets the trend, the
    tracked levels and their timestamps to [None] and the counter to 0; it
    leaves the thresholds, the callbacks, the logger and the recording
    switch as they are, and it leaves [symbol] as it is.  When recording is
    on it empties the recorded lines and colours and unbinds the history;
    when it is off it does not touch them, and on a reachable object there
    are then none. *)
Theorem reset_clears_state s :
  let r := reset s in
  value r = Returned tt /\ calls r = [] /\
  (trend (final r) = None /\ high (final r) = None /\ low (final r) = None /\
   coc (final r) = None /\ sph (final r) = None /\ spl (final r) = None) /\
  (high_dt (final r) = None /\ low_dt (final r) = None /\
   coc_dt (final r) = None /\ sph_dt (final r) = None /\
   spl_dt (final r) = None) /\
  bars_since (final r) = 0 /\
  symbol (final r) = symbol s /\
  (retrace_threshold (final r) = retrace_threshold s /\
   sideways_threshold (final r) = sideways_threshold s /\
   on_reversal (final r) = on_reversal s /\
   on_breakout (final r) = on_breakout s /\
   logger (final r) = logger s /\ plot (final r) = plot s) /\
  (plot s = true ->
   plot_lines (final r) = [] /\ plot_colors (final r) = [] /\
   df (final r) = None) /\
  (plot s = false ->
   plot_lines (final r) = plot_lines s /\
   plot_colors (final r) = plot_colors s /\ df (final r) = df s) /\
  (reachable s ->
   plot_lines (final r) = [] /\ plot_colors (final r) = []).
Proof.
  cbv zeta.
  assert (Hr : reachable s ->
               plot_lines (final (reset s)) = [] /\
               plot_colors (final (reset s)) = []).
  { intros H. apply reachable_lines_inv in H. destruct H as [_ Hoff].
    revert Hoff. open_swing s. unfold_py.
    destruct xp; unfold_py; [now split | intros Hoff; now apply Hoff]. }
  refine (conj _ (conj _ (conj _ (conj _ (conj _ (conj _ (conj _
            (conj _ (conj _ Hr))))))))).
  all: clear Hr; open_swing s; unfold_py; destruct xp; unfold_py;
    repeat apply conj; try reflexivity; intros Hf; try discriminate Hf;
    repeat apply conj; reflexivity.
Qed.

Lemma reset_clears_state_witness :
  let s := final (run "ABC" [bar 0 10 8 9; bar 1 12 9 11; bar 2 11 7 (15 # 2)]
                    true default) in
  plot_lines s <> [] /\
  plot_lines (final (reset s)) = [] /\ plot_colors (final (reset s)) = [] /\
  df (final (reset s)) = None /\ trend (final (reset s)) = None /\
  symbol (final (reset s)) = Some "ABC".
Proof.
  intros s.
  destruct (reset_clears_state s)
    as (_ & _ & (Ht & _) & _ & _ & Hsym & _ & Hon & _ & _).
  assert (P : plot s = true) by (vm_compute; reflexivity).
  destruct (Hon P) as (H1 & H2 & H3).
  refine (conj _ (conj H1 (conj H2 (conj H3 (conj Ht _))))).
  - vm_compute. discriminate.
  - rewrite Hsym. vm_compute. reflexivity.
Defined.

(** C8 as stated fails for [symbol]: after a run on "ABC", [reset] leaves
    the symbol "ABC", whereas a newly constructed engine has none. *)
Lemma reset_symbol_counterexample :
  let s := final (run "ABC" [bar 0 10 8 9; bar 1 12 9 11] false default) in
  symbol s = Some "ABC" /\
  symbol (final (reset s)) = Some "ABC" /\
  symbol default = None /\
  symbol (final (reset s)) <> symbol default.
Proof.
  vm_compute. repeat apply conj; try reflexivity. discriminate.
Qed.

(** ** Further properties of [identify] *)

Ltac close_arith :=
  intros ->; leaf_norm; cbn [length] in *;
  first
    [ finish
    | repeat first [apply conj | intro];
      first [congruence | reflexivity | contradiction | lia] ].

(** With recording off [identify] always returns: no test or subtraction
    ever meets [None], and the division is guarded. *)
Lemma identify_returns dt hi lo cl s :
  plot s = false -> value (identify dt hi lo cl s) = Returned tt.
Proof.
  intros Hp. rewrite identify_by_trend.
  destruct (trend s) as [[]|] eqn:Ht; start_py s r; run_py.
  all: intros ->; close_by_hyps.
Qed.

(** X3.  A bar invokes at most one callback, as the last thing it does: a call
    that raised invoked none, and so does an engine without callbacks. *)
Lemma identify_calls dt hi lo cl s :
  let r := identify dt hi lo cl s in
  (length (calls r) <= 1)%nat /\
  (value r <> Returned tt -> calls r = []) /\
  (on_reversal s = None -> on_breakout s = None -> calls r = []).
Proof.
  rewrite identify_by_trend. cbv zeta.
  destruct (trend s) as [[]|] eqn:Ht; start_py s r; run_py.
  all: close_arith.
Qed.

Lemma identify_calls_witness :
  (length (calls (identify 3 13 10 (25 # 2)
                    (set_on_breakout (Some 1%nat) up_pending))) <= 1)%nat /\
  calls (identify 3 13 10 (25 # 2) up_pending) = [].
Proof.
  split.
  - apply (identify_calls 3 13 10 (25 # 2)
             (set_on_breakout (Some 1%nat) up_pending)).
  - apply (identify_calls 3 13 10 (25 # 2) up_pending);
      vm_compute; reflexivity.
Defined.

(** X4.  The first bar only seeds the tracked high and low. *)
Lemma first_bar dt hi lo cl s :
  trend s = None -> (high s = None \/ low s = None) ->
  let r := identify dt hi lo cl s in
  value r = Returned tt /\ calls r = [] /\
  trend (final r) = None /\ coc (final r) = coc s /\
  high (final r) = Some hi /\ low (final r) = Some lo /\
  high_dt (final r) = Some dt /\ low_dt (final r) = Some dt /\
  bars_since (final r) = bars_since s.
Proof.
  intros Ht [Hn|Hn]; rewrite identify_by_trend, Ht; cbv zeta;
    start_py s r; run_py.
  all: intros ->; close_by_hyps.
Qed.

Lemma first_bar_witness :
  let r := identify 0 10 8 9 default in
  high (final r) = Some 10%Q /\ low (final r) = Some 8%Q /\
  trend (final r) = None.
Proof.
  intros r.
  destruct (first_bar 0 10 8 9 default eq_refl (or_introl eq_refl))
    as (_ & _ & H3 & _ & H5 & H6 & _).
  exact (conj H5 (conj H6 H3)).
Defined.

(** X5.  How a trend starts.  With the first bar's high [h0] and low [l0]
    tracked, a close above [h0] starts [UP] with the tracked low as [coc];
    otherwise a close below [l0] starts [DOWN] with the tracked high as
    [coc]; otherwise there is still no trend.  In every case the envelope
    is widened by the bar, nothing is called and nothing is raised. *)
Lemma trend_start dt hi lo cl s h0 l0 :
  trend s = None -> high s = Some h0 -> low s = Some l0 ->
  let r := identify dt hi lo cl s in
  let wide_hi := if Py.gt hi h0 then hi else h0 in
  let wide_lo := if Py.lt lo l0 then lo else l0 in
  value r = Returned tt /\ calls r = [] /\
  bars_since (final r) = bars_since s /\
  sph (final r) = sph s /\ spl (final r) = spl s /\
  (Py.gt cl h0 = true ->
   trend (final r) = Some UP /\
   coc (final r) = Some l0 /\ coc_dt (final r) = low_dt s /\
   high (final r) = Some hi /\ high_dt (final r) = Some dt /\
   low (final r) = Some wide_lo) /\
  (Py.gt cl h0 = false -> Py.lt cl l0 = true ->
   trend (final r) = Some DOWN /\
   coc (final r) = Some h0 /\ coc_dt (final r) = high_dt s /\
   low (final r) = Some lo /\ low_dt (final r) = Some dt /\
   high (final r) = Some wide_hi) /\
  (Py.gt cl h0 = false -> Py.lt cl l0 = false ->
   trend (final r) = None /\ coc (final r) = coc s /\
   high (final r) = Some wide_hi /\ low (final r) = Some wide_lo).
Proof.
  intros Ht Hh Hl. rewrite identify_by_trend, Ht. cbv zeta.
  start_py s r. run_py.
  all: intros ->; close_by_hyps.
Qed.

Lemma trend_start_witness :
  let s := final (identify 0 10 8 9 default) in
  (let r := identify 1 12 9 11 s in
   trend (final r) = Some UP /\ coc (final r) = Some 8%Q /\
   high (final r) = Some 12%Q) /\
  (let r := identify 1 9 6 7 s in
   trend (final r) = Some DOWN /\ coc (final r) = Some 10%Q /\
   low (final r) = Some 6%Q) /\
  (let r := identify 1 11 7 9 s in
   trend (final r) = None /\ high (final r) = Some 11%Q /\
   low (final r) = Some 7%Q).
Proof.
  intros s.
  assert (P1 : trend s = None) by (vm_compute; reflexivity).
  assert (P2 : high s = Some 10%Q) by (vm_compute; reflexivity).
  assert (P3 : low s = Some 8%Q) by (vm_compute; reflexivity).
  refine (conj _ (conj _ _)).
  - destruct (trend_start 1 12 9 11 s 10 8 P1 P2 P3)
      as (_ & _ & _ & _ & _ & H & _ & _).
    destruct (H eq_refl) as (H1 & H2 & _ & H4 & _).
    exact (conj H1 (conj H2 H4)).
  - destruct (trend_start 1 9 6 7 s 10 8 P1 P2 P3)
      as (_ & _ & _ & _ & _ & _ & H & _).
    destruct (H eq_refl eq_refl) as (H1 & H2 & _ & H4 & _).
    exact (conj H1 (conj H2 H4)).
  - destruct (trend_start 1 11 7 9 s 10 8 P1 P2 P3)
      as (_ & _ & _ & _ & _ & _ & _ & H).
    destruct (H eq_refl eq_refl) as (H1 & _ & H3 & H4).
    exact (conj H1 (conj H3 H4)).
Defined.

(** A bar that makes a new high while no pivot is pending. *)
Lemma new_high_bar dt hi lo cl s :
  trend s = Some UP -> Py.truthy (sph s) = false ->
  Py.and_then (high s) (fun x => Py.gt hi x) = true ->
  let r := identify dt hi lo cl s in
  value r = Returned tt /\ calls r = [] /\
  trend (final r) = Some UP /\
  high (final r) = Some hi /\ high_dt (final r) = Some dt /\
  low (final r) = Some lo /\ low_dt (final r) = Some dt /\
  sph (final r) = sph s /\ coc (final r) = coc s /\
  bars_since (final r) = bars_since s.
Proof.
  intros Ht Hp Hh. rewrite identify_by_trend, Ht. cbv zeta.
  start_py s r. run_py.
  all: intros ->; close_by_hyps.
Qed.

Lemma new_low_bar dt hi lo cl s :
  trend s = Some DOWN -> Py.truthy (spl s) = false ->
  Py.and_then (low s) (fun x => Py.lt lo x) = true ->
  let r := identify dt hi lo cl s in
  value r = Returned tt /\ calls r = [] /\
  trend (final r) = Some DOWN /\
  low (final r) = Some lo /\ low_dt (final r) = Some dt /\
  high (final r) = Some hi /\ high_dt (final r) = Some dt /\
  spl (final r) = spl s /\ coc (final r) = coc s /\
  bars_since (final r) = bars_since s.
Proof.
  intros Ht Hp Hh. rewrite identify_by_trend, Ht. cbv zeta.
  start_py s r. run_py.
  all: intros ->; close_by_hyps.
Qed.

(** X6.  With no pivot pending, a bar whose high exceeds the tracked high only
    moves the tracked high and restarts the low at this bar: no pivot
    forms, the counter stays, and the trend is not reversed even when the
    bar closes below [coc].  Symmetrically for a new low in a [DOWN]
    trend. *)
Theorem new_extreme_bar :
  (forall dt hi lo cl s,
     trend s = Some UP -> Py.truthy (sph s) = false ->
     Py.and_then (high s) (fun x => Py.gt hi x) = true ->
     let r := identify dt hi lo cl s in
     value r = Returned tt /\ calls r = [] /\
     trend (final r) = Some UP /\
     high (final r) = Some hi /\ high_dt (final r) = Some dt /\
     low (final r) = Some lo /\ low_dt (final r) = Some dt /\
     sph (final r) = sph s /\ coc (final r) = coc s /\
     bars_since (final r) = bars_since s) /\
  (forall dt hi lo cl s,
     trend s = Some DOWN -> Py.truthy (spl s) = false ->
     Py.and_then (low s) (fun x => Py.lt lo x) = true ->
     let r := identify dt hi lo cl s in
     value r = Returned tt /\ calls r = [] /\
     trend (final r) = Some DOWN /\
     low (final r) = Some lo /\ low_dt (final r) = Some dt /\
     high (final r) = Some hi /\ high_dt (final r) = Some dt /\
     spl (final r) = spl s /\ coc (final r) = coc s /\
     bars_since (final r) = bars_since s).
Proof.
  split.
  - intros dt hi lo cl s Ht Hp Hh.
    exact (new_high_bar dt hi lo cl s Ht Hp Hh).
  - intros dt hi lo cl s Ht Hp Hl.
    exact (new_low_bar dt hi lo cl s Ht Hp Hl).
Qed.

Lemma new_extreme_bar_witness :
  (let r := identify 2 13 7 (15 # 2) up_started in
   trend (final r) = Some UP /\ high (final r) = Some 13%Q /\
   low (final r) = Some 7%Q /\ coc (final r) = Some 8%Q) /\
  (let r := identify 2 11 5 (21 # 2) down_started in
   trend (final r) = Some DOWN /\ low (final r) = Some 5%Q /\
   high (final r) = Some 11%Q /\ coc (final r) = Some 10%Q).
Proof.
  destruct new_extreme_bar as [Hup Hdown]. split.
  - destruct (Hup 2 13%Q 7%Q (15 # 2)%Q up_started eq_refl eq_refl eq_refl)
      as (_ & _ & H3 & H4 & _ & H6 & _ & _ & H9 & _).
    refine (conj H3 (conj H4 (conj H6 _))). rewrite H9. reflexivity.
  - destruct (Hdown 2 11%Q 5%Q (21 # 2)%Q down_started eq_refl eq_refl
                eq_refl)
      as (_ & _ & H3 & H4 & _ & H6 & _ & _ & H9 & _).
    refine (conj H3 (conj H4 (conj H6 _))). rewrite H9. reflexivity.
Defined.

(** Where a reversal can come from. *)
Lemma trend_changes_up dt hi lo cl s :
  trend s = Some UP ->
  let r := identify dt hi lo cl s in
  trend (final r) <> None /\
  (trend (final r) = Some DOWN ->
   Py.and_then (coc s) (fun c => Py.lt cl c) = true /\
   Py.and_then (sph s) (fun p => Py.gt cl p) = false).
Proof.
  intros Ht. rewrite identify_by_trend, Ht. cbv zeta.
  start_py s r. run_py.
  all: intros ->; close_by_hyps.
Qed.

Lemma trend_changes_down dt hi lo cl s :
  trend s = Some DOWN ->
  let r := identify dt hi lo cl s in
  trend (final r) <> None /\
  (trend (final r) = Some UP ->
   Py.and_then (coc s) (fun c => Py.gt cl c) = true /\
   Py.and_then (spl s) (fun p => Py.lt cl p) = false).
Proof.
  intros Ht. rewrite identify_by_trend, Ht. cbv zeta.
  start_py s r. run_py.
  all: intros ->; close_by_hyps.
Qed.

(** X7.  A trend, once set, is never unset by [identify], and it is reversed
    only by a close beyond a non-zero [coc] on a bar that does not close
    beyond a pending pivot. *)
Theorem trend_changes_only_beyond_coc :
  (forall dt hi lo cl s,
     trend s = Some UP ->
     let r := identify dt hi lo cl s in
     trend (final r) <> None /\
     (trend (final r) = Some DOWN ->
      Py.and_then (coc s) (fun c => Py.lt cl c) = true /\
      Py.and_then (sph s) (fun p => Py.gt cl p) = false)) /\
  (forall dt hi lo cl s,
     trend s = Some DOWN ->
     let r := identify dt hi lo cl s in
     trend (final r) <> None /\
     (trend (final r) = Some UP ->
      Py.and_then (coc s) (fun c => Py.gt cl c) = true /\
      Py.and_then (spl s) (fun p => Py.lt cl p) = false)).
Proof.
  split.
  - intros dt hi lo cl s Ht. exact (trend_changes_up dt hi lo cl s Ht).
  - intros dt hi lo cl s Ht. exact (trend_changes_down dt hi lo cl s Ht).
Qed.

Lemma trend_changes_only_beyond_coc_witness :
  Py.and_then (coc up_pending) (fun c => Py.lt (15 # 2) c) = true /\
  Py.and_then (coc down_pending) (fun c => Py.gt (21 # 2) c) = true.
Proof.
  destruct trend_changes_only_beyond_coc as [Hup Hdown]. split.
  - destruct (Hup 3 (25 # 2)%Q 7%Q (15 # 2)%Q up_pending eq_refl)
      as [_ H].
    apply H. vm_compute. reflexivity.
  - destruct (Hdown 3 11%Q (11 # 2)%Q (21 # 2)%Q down_pending eq_refl)
      as [_ H].
    apply H. vm_compute. reflexivity.
Defined.

(** ** The end point of a recorded line *)

Lemma first_pos_nth ix :
  NoDup ix -> forall i d, nth_error ix i = Some d ->
  first_pos ix d = Z.of_nat i.
Proof.
  induction 1 as [|a ix Ha Hnd IH]; intros i d Hi.
  - destruct i; discriminate Hi.
  - destruct i as [|i]; cbn [nth_error first_pos] in *.
    + injection Hi as ->. rewrite Z.eqb_refl. reflexivity.
    + assert (Hin : In d ix) by (eapply nth_error_In; exact Hi).
      destruct (Z.eqb_spec a d) as [->|Hne]; [contradiction|].
      rewrite (IH i d Hi). lia.
Qed.

Lemma line_end_dt_unbound dt s :
  df s = None -> line_end_dt dt s = MkRes s [] (Raised ValueError).
Proof.
  intros H. unfold line_end_dt. rewrite bind_get, H. reflexivity.
Qed.

Lemma line_end_dt_missing frame dt s :
  df s = Some frame ->
  match dt with
  | Some d => ~ In d (map bar_dt frame)
  | None => True
  end ->
  line_end_dt dt s = MkRes s [] (Raised KeyError).
Proof.
  intros H Hd. unfold line_end_dt. rewrite bind_get, H.
  destruct dt as [d|]; [|reflexivity].
  apply (count_occ_not_In Z.eq_dec) in Hd.
  unfold bind, get_loc. rewrite Hd. reflexivity.
Qed.

Lemma line_end_dt_found frame d i s :
  df s = Some frame -> NoDup (map bar_dt frame) ->
  nth_error (map bar_dt frame) i = Some d ->
  exists d',
    nth_error (map bar_dt frame) (Nat.min (i + 15) (length frame - 1))
      = Some d' /\
    line_end_dt (Some d) s = MkRes s [] (Returned d').
Proof.
  intros H Hnd Hi. unfold line_end_dt. rewrite bind_get, H.
  assert (Hin : In d (map bar_dt frame))
    by (eapply nth_error_In; exact Hi).
  assert (Hc : count_occ Z.eq_dec (map bar_dt frame) d = 1%nat)
    by (apply NoDup_count_occ'; assumption).
  assert (Hlen : (i < length frame)%nat).
  { rewrite <- (length_map bar_dt). apply nth_error_Some. congruence. }
  set (j := Nat.min (i + 15) (length frame - 1)).
  assert (Hj : (j < length (map bar_dt frame))%nat)
    by (rewrite length_map; unfold j; lia).
  destruct (nth_error (map bar_dt frame) j) as [d'|] eqn:Ej;
    [|apply nth_error_Some in Hj; contradiction].
  exists d'. split; [reflexivity|].
  unfold bind, get_loc. rewrite Hc, (first_pos_nth _ Hnd i d Hi).
  cbn [ret final calls value].
  replace (Z.to_nat (Z.min (Z.of_nat i + 15) (Z.of_nat (length frame) - 1)))
    with j by (unfold j; lia).
  rewrite Ej. reflexivity.
Qed.

(** X12.  [__line_end_dt] raises [ValueError] when no history is bound and
    [KeyError] when the timestamp is not in the index; when the index has
    no repeated timestamp and holds the timestamp at position [i], it
    returns the timestamp 15 rows later, or the last one when the history
    ends before.  It never changes the object. *)
Theorem line_end_dt_spec :
  (forall dt s,
     df s = None -> line_end_dt dt s = MkRes s [] (Raised ValueError)) /\
  (forall frame dt s,
     df s = Some frame ->
     match dt with
     | Some d => ~ In d (map bar_dt frame)
     | None => True
     end ->
     line_end_dt dt s = MkRes s [] (Raised KeyError)) /\
  (forall frame d i s,
     df s = Some frame -> NoDup (map bar_dt frame) ->
     nth_error (map bar_dt frame) i = Some d ->
     exists d',
       nth_error (map bar_dt frame) (Nat.min (i + 15) (length frame - 1))
         = Some d' /\
       line_end_dt (Some d) s = MkRes s [] (Returned d')).
Proof.
  exact (conj line_end_dt_unbound
           (conj line_end_dt_missing line_end_dt_found)).
Qed.

Lemma line_end_dt_spec_witness :
  let frame := map (fun n => bar (Z.of_nat n) 11 9 10) (seq 0 20) in
  let s := set_df (Some frame) default in
  value (line_end_dt (Some 2) s) = Returned 17 /\
  value (line_end_dt (Some 9) s) = Returned 19 /\
  value (line_end_dt (Some 42) s) = Raised KeyError /\
  value (line_end_dt (Some 2) default) = Raised ValueError.
Proof.
  intros frame s.
  destruct line_end_dt_spec as (Hu & Hm & Hf).
  assert (Hnd : NoDup (map bar_dt frame)).
  { vm_compute. repeat constructor; cbn; intuition discriminate. }
  refine (conj _ (conj _ (conj _ _))).
  - destruct (Hf frame 2 2%nat s eq_refl Hnd eq_refl) as (d' & Hd & ->).
    vm_compute in Hd. injection Hd as <-. reflexivity.
  - destruct (Hf frame 9 9%nat s eq_refl Hnd eq_refl) as (d' & Hd & ->).
    vm_compute in Hd. injection Hd as <-. reflexivity.
  - rewrite (Hm frame (Some 42) s eq_refl); [reflexivity|].
    vm_compute. intuition discriminate.
  - rewrite (Hu (Some 2) default eq_refl). reflexivity.
Defined.

(** ** Resetting after a replay *)

Lemma identify_all_config rows s :
  let s' := final (identify_all rows s) in
  df s' = df s /\ retrace_threshold s' = retrace_threshold s /\
  sideways_threshold s' = sideways_threshold s /\
  symbol s' = symbol s /\ on_reversal s' = on_reversal s /\
  on_breakout s' = on_breakout s /\ logger s' = logger s /\
  plot s' = plot s /\
  (plot s = false ->
   plot_lines s' = plot_lines s /\ plot_colors s' = plot_colors s).
Proof.
  revert s. induction rows as [|t rest IH]; intros s; cbn [identify_all].
  - cbn. repeat split.
  - apply (bind_final (fun s' =>
      df s' = df s /\ retrace_threshold s' = retrace_threshold s /\
      sideways_threshold s' = sideways_threshold s /\
      symbol s' = symbol s /\ on_reversal s' = on_reversal s /\
      on_breakout s' = on_breakout s /\ logger s' = logger s /\
      plot s' = plot s /\
      (plot s = false ->
       plot_lines s' = plot_lines s /\ plot_colors s' = plot_colors s))).
    + destruct (identify_frame (bar_dt t) (bar_high t) (bar_low t)
                  (bar_close t) s)
        as (H1 & H2 & H3 & H4 & H5 & H6 & H7 & H8 & H9).
      repeat apply conj; try assumption.
      intros Hoff. destruct H9 as [H9 | (Hon & _)]; [exact H9|congruence].
    + intros _ s1 (H1 & H2 & H3 & H4 & H5 & H6 & H7 & H8 & H9).
      destruct (IH s1) as (G1 & G2 & G3 & G4 & G5 & G6 & G7 & G8 & G9).
      repeat apply conj; try congruence.
      intros Hoff. destruct (H9 Hoff) as [L1 L2].
      destruct G9 as [K1 K2]; [congruence|]. split; congruence.
Qed.

(** X14.  On an object that tracks nothing and does not record lines, a replay
    followed by [reset] gives the object back exactly: thresholds, symbol
    and callbacks are never touched and every tracked level is cleared. *)
Theorem reset_undoes_replay s rows :
  pristine s -> plot s = false ->
  final (reset (final (identify_all rows s))) = s.
Proof.
  intros Hp Hoff.
  destruct (identify_all_config rows s)
    as (H1 & H2 & H3 & H4 & H5 & H6 & H7 & H8 & H9).
  destruct (H9 Hoff) as [L1 L2]. rewrite Hoff in H8.
  destruct (final (identify_all rows s)) as
    [ytr yfr yh yl yk yph ypl yhd yld ykd yphd ypld yrt yst ysy yorv yobr
     ylg yp ypls ypcs ybs].
  unfold pristine in Hp. open_swing s. cbn in *.
  destruct Hp as (-> & -> & -> & -> & -> & -> & -> & -> & -> & -> & -> & ->).
  subst. reflexivity.
Qed.

Lemma reset_undoes_replay_witness :
  final (reset (final (identify_all
                         [bar 0 10 8 9; bar 1 12 9 11; bar 2 11 9 10]
                         default))) = default.
Proof.
  apply reset_undoes_replay.
  - vm_compute. repeat split.
  - reflexivity.
Defined.

(** ** Which levels are set *)

Ltac known x :=
  destruct x; [|exfalso; first [congruence | contradiction | tauto]].

Ltac close_levels :=
  intros ->; leaf_norm; unfold levels_inv; leaf_norm;
  repeat first [apply conj | intro];
  first [congruence | contradiction | reflexivity | tauto].

Lemma identify_unset_levels dt hi lo cl s :
  trend s = None -> inv s -> levels_inv s ->
  levels_inv (final (identify_unset dt hi lo cl s)).
Proof.
  intros Ht Hi (_ & _ & Hn). specialize (Hn Ht).
  destruct (inv_unset s Hi Ht) as (Hk & Hp & Hl). clear Hi.
  remember (identify_unset dt hi lo cl s) as r eqn:E. revert E.
  open_swing s. cbn in *. subst. unfold_py. run_py.
  all: close_levels.
Qed.

Lemma identify_up_levels dt hi lo cl s :
  trend s = Some UP -> inv s -> levels_inv s ->
  levels_inv (final (identify_up dt hi lo cl s)).
Proof.
  intros Ht Hi (Hu & _ & _). destruct (Hu Ht) as (Hh & Hk & Hl).
  pose proof (inv_up s Hi Ht) as Hs. clear Hi Hu.
  remember (identify_up dt hi lo cl s) as r eqn:E. revert E.
  open_swing s. cbn in *. subst. known xh. known xk.
  destruct xph; [assert (xl <> None) by (apply Hl; discriminate);
                 known xl|]; clear Hl Hh Hk.
  all: unfold_py; run_py.
  all: close_levels.
Qed.

Lemma identify_down_levels dt hi lo cl s :
  trend s = Some DOWN -> inv s -> levels_inv s ->
  levels_inv (final (identify_down dt hi lo cl s)).
Proof.
  intros Ht Hi (_ & Hd & _). destruct (Hd Ht) as (Hl & Hk & Hh).
  pose proof (inv_down s Hi Ht) as Hs. clear Hi Hd.
  remember (identify_down dt hi lo cl s) as r eqn:E. revert E.
  open_swing s. cbn in *. subst. known xl. known xk.
  destruct xpl; [assert (xh <> None) by (apply Hh; discriminate);
                 known xh|]; clear Hl Hh Hk.
  all: unfold_py; run_py.
  all: close_levels.
Qed.

Lemma identify_levels dt hi lo cl s :
  inv s /\ levels_inv s ->
  inv (final (identify dt hi lo cl s)) /\
  levels_inv (final (identify dt hi lo cl s)).
Proof.
  intros [Hi Hl]. split; [now apply identify_inv|].
  rewrite identify_by_trend. destruct (trend s) as [[]|] eqn:Ht.
  - now apply identify_up_levels.
  - now apply identify_down_levels.
  - now apply identify_unset_levels.
Qed.

Lemma identify_all_levels rows s :
  inv s /\ levels_inv s ->
  inv (final (identify_all rows s)) /\
  levels_inv (final (identify_all rows s)).
Proof.
  revert s. induction rows as [|t rest IH]; intros s H; [exact H|].
  cbn [identify_all].
  apply (bind_final (fun s => inv s /\ levels_inv s));
    [now apply identify_levels|].
  intros _ s' Hs'. now apply IH.
Qed.

Lemma reset_levels s : levels_inv (final (reset s)).
Proof.
  open_swing s. unfold_py. destruct xp; unfold levels_inv; unfold_py;
    repeat first [apply conj | intro]; congruence.
Qed.

(** X15.  In every reachable object: in an [UP] trend [high] and [coc] are set,
    and [low] is too while a pivot is pending; in a [DOWN] trend [low] and
    [coc] are set, and [high] is too while a pivot is pending; before the
    first bar [high] and [low] are both unset, after it both are set. *)
Theorem reachable_levels s : reachable s -> levels_inv s.
Proof.
  intros H.
  assert (G : inv s /\ levels_inv s); [|exact (proj2 G)].
  induction H.
  - split; unfold inv, levels_inv, init; cbn;
      repeat first [apply conj | intro]; congruence.
  - now apply identify_levels.
  - split; [apply reset_inv | apply reset_levels].
  - unfold run.
    apply (bind_final (fun s => inv s /\ levels_inv s)); [exact IHreachable|].
    intros _ s1 H1.
    apply (bind_final (fun s => inv s /\ levels_inv s));
      [|intros _ s2 H2; now apply identify_all_levels].
    destruct lines; exact H1.
  - exact IHreachable.
  - exact IHreachable.
Qed.

Lemma reachable_levels_witness :
  levels_inv (final (identify 1 12 9 11 (final (identify 0 10 8 9 default)))).
Proof.
  apply reachable_levels. unfold default.
  apply reach_identify, reach_identify, reach_init.
Defined.

(** X16.  In every reachable object the recorded lines and their colours are
    equally many, and there are none unless recording was switched on. *)
Theorem reachable_lines s : reachable s -> lines_inv s.
Proof.
  induction 1 as [pct thr dbg | s dt hi lo cl _ IH | s _ IH
                 | s sym frame lines _ IH | s f _ IH | s f _ IH].
  - split; [reflexivity|]. intros _. split; reflexivity.
  - apply identify_lines_inv, IH.
  - apply reset_lines_inv, IH.
  - apply run_lines_inv, IH.
  - destruct IH as [Hlen Hoff]. split; [exact Hlen | exact Hoff].
  - destruct IH as [Hlen Hoff]. split; [exact Hlen | exact Hoff].
Qed.

Lemma reachable_lines_witness :
  lines_inv (final (run "ABC" [bar 0 10 8 9; bar 1 12 9 11; bar 2 11 7 7]
                      true default)).
Proof.
  apply reachable_lines. unfold default.
  apply reach_run, reach_init.
Defined.

(** ** Recording lines over a history *)

Ltac date_known :=
  repeat match goal with
         | H : match ?d with Some _ => _ | None => False end |- _ =>
             destruct d; [|contradiction]
         end.

Ltac close_recording :=
  intros ->; leaf_norm; date_known;
  first
    [ repeat apply conj;
      first [assumption | reflexivity | exact I | congruence | contradiction]
    | exfalso;
      match goal with
      | H : (exists _ _, _) -> False |- _ =>
          apply H; do 2 eexists;
          repeat apply conj; [reflexivity | assumption | reflexivity
                             | assumption]
      end ].

Lemma identify_unset_recording frame dt hi lo cl s :
  trend s = None -> inv s -> levels_inv s -> recording_inv frame s ->
  NoDup (map bar_dt frame) -> In dt (map bar_dt frame) ->
  let r := identify_unset dt hi lo cl s in
  value r = Returned tt /\ recording_inv frame (final r).
Proof.
  intros Ht Hi _ Hr Hnd Hdt.
  destruct (inv_unset s Hi Ht) as (Hk & Hp & Hl). clear Hi.
  cbv zeta. remember (identify_unset dt hi lo cl s) as r eqn:E. revert E.
  unfold recording_inv, dated in *.
  open_swing s. cbn in *. subst.
  destruct Hr as (-> & -> & Hh & Hlo & Hc).
  unfold_py. run_py.
  all: close_recording.
Qed.

Lemma identify_up_recording frame dt hi lo cl s :
  trend s = Some UP -> inv s -> levels_inv s -> recording_inv frame s ->
  NoDup (map bar_dt frame) -> In dt (map bar_dt frame) ->
  let r := identify_up dt hi lo cl s in
  value r = Returned tt /\ recording_inv frame (final r).
Proof.
  intros Ht Hi (Hu & _ & _) Hr Hnd Hdt.
  destruct (Hu Ht) as (Hh & Hk & Hl).
  pose proof (inv_up s Hi Ht) as Hs. clear Hi Hu.
  cbv zeta. remember (identify_up dt hi lo cl s) as r eqn:E. revert E.
  unfold recording_inv, dated in *.
  open_swing s. cbn in *. subst. known xh. known xk.
  destruct Hr as (-> & -> & Hdh & Hdl & Hdc).
  destruct xph; [assert (xl <> None) by (apply Hl; discriminate);
                 known xl|]; clear Hl Hh Hk.
  all: date_known; unfold_py; run_py.
  all: close_recording.
Qed.

Lemma identify_down_recording frame dt hi lo cl s :
  trend s = Some DOWN -> inv s -> levels_inv s -> recording_inv frame s ->
  NoDup (map bar_dt frame) -> In dt (map bar_dt frame) ->
  let r := identify_down dt hi lo cl s in
  value r = Returned tt /\ recording_inv frame (final r).
Proof.
  intros Ht Hi (_ & Hd & _) Hr Hnd Hdt.
  destruct (Hd Ht) as (Hl & Hk & Hh).
  pose proof (inv_down s Hi Ht) as Hs. clear Hi Hd.
  cbv zeta. remember (identify_down dt hi lo cl s) as r eqn:E. revert E.
  unfold recording_inv, dated in *.
  open_swing s. cbn in *. subst. known xl. known xk.
  destruct Hr as (-> & -> & Hdh & Hdl & Hdc).
  destruct xpl; [assert (xh <> None) by (apply Hh; discriminate);
                 known xh|]; clear Hl Hh Hk.
  all: date_known; unfold_py; run_py.
  all: close_recording.
Qed.

Lemma identify_recording frame dt hi lo cl s :
  inv s /\ levels_inv s /\ recording_inv frame s ->
  NoDup (map bar_dt frame) -> In dt (map bar_dt frame) ->
  let r := identify dt hi lo cl s in
  value r = Returned tt /\
  (inv (final r) /\ levels_inv (final r) /\ recording_inv frame (final r)).
Proof.
  intros (Hi & Hl & Hr) Hnd Hdt. cbv zeta.
  destruct (identify_levels dt hi lo cl s (conj Hi Hl)) as [Hi' Hl'].
  revert Hi' Hl'. rewrite identify_by_trend.
  destruct (trend s) as [[]|] eqn:Ht; intros Hi' Hl'.
  - destruct (identify_up_recording frame dt hi lo cl s Ht Hi Hl Hr Hnd Hdt)
      as [Hv Hr'].
    exact (conj Hv (conj Hi' (conj Hl' Hr'))).
  - destruct (identify_down_recording frame dt hi lo cl s Ht Hi Hl Hr Hnd
                Hdt) as [Hv Hr'].
    exact (conj Hv (conj Hi' (conj Hl' Hr'))).
  - destruct (identify_unset_recording frame dt hi lo cl s Ht Hi Hl Hr Hnd
                Hdt) as [Hv Hr'].
    exact (conj Hv (conj Hi' (conj Hl' Hr'))).
Qed.

Lemma identify_all_recording frame rows : forall s,
  inv s /\ levels_inv s /\ recording_inv frame s ->
  NoDup (map bar_dt frame) ->
  (forall b, In b rows -> In (bar_dt b) (map bar_dt frame)) ->
  let r := identify_all rows s in
  value r = Returned tt /\
  (inv (final r) /\ levels_inv (final r) /\ recording_inv frame (final r)).
Proof.
  induction rows as [|t rest IH]; intros s Hs Hnd Hin.
  - cbn. split; [reflexivity | exact Hs].
  - cbn [identify_all]. cbv zeta.
    destruct (identify_recording frame (bar_dt t) (bar_high t) (bar_low t)
                (bar_close t) s Hs Hnd (Hin t (or_introl eq_refl)))
      as [Hv Hs1].
    unfold bind.
    destruct (identify (bar_dt t) (bar_high t) (bar_low t) (bar_close t) s)
      as [s1 c1 v1]. cbn [value final] in Hv, Hs1. subst v1.
    destruct (IH s1 Hs1 Hnd (fun b Hb => Hin b (or_intror Hb))) as [Hv2 Hs2].
    destruct (identify_all rest s1) as [s2 c2 v2].
    cbn [value final] in *. split; assumption.
Qed.

Lemma run_eq sym frame lines s :
  run sym frame lines s =
  identify_all frame
    (if lines
     then set_df (Some frame) (set_plot_lines [] (set_plot_colors []
            (set_plot true (set_symbol (Some sym) s))))
     else set_symbol (Some sym) s).
Proof.
  unfold run.
  rewrite (bind_returned _ _ s (set_symbol (Some sym) s) tt eq_refl).
  destruct lines.
  - now rewrite (bind_returned _ _ _ _ tt eq_refl).
  - now rewrite (bind_returned _ _ _ _ tt eq_refl).
Qed.

(** X11.  On an engine that tracks nothing, [run] with line recording over a
    history without repeated timestamps never raises: every timestamp
    whose line end is looked up is one of the rows already processed.  The
    history stays bound, and the recorded lines and colours are equally
    many. *)
Theorem run_recording_returns sym frame s :
  pristine s -> NoDup (map bar_dt frame) ->
  let r := run sym frame true s in
  value r = Returned tt /\
  plot (final r) = true /\ df (final r) = Some frame /\
  length (plot_lines (final r)) = length (plot_colors (final r)).
Proof.
  intros Hp Hnd. cbv zeta. rewrite run_eq.
  set (s1 := set_df (Some frame) (set_plot_lines [] (set_plot_colors []
               (set_plot true (set_symbol (Some sym) s))))).
  assert (Hs1 : inv s1 /\ levels_inv s1 /\ recording_inv frame s1).
  { unfold pristine in Hp.
    destruct Hp as (H1 & H2 & H3 & H4 & H5 & H6 & H7 & H8 & H9 & _).
    subst s1. open_swing s. cbn in *. subst.
    unfold inv, levels_inv, recording_inv, dated. cbn.
    repeat first [apply conj | intro]; try congruence; try exact I;
      reflexivity. }
  assert (Hl1 : lines_inv s1).
  { subst s1. open_swing s. unfold lines_inv. cbn.
    split; [reflexivity | intros Hf; discriminate Hf]. }
  destruct (identify_all_recording frame frame s1 Hs1 Hnd
              (fun b Hb => in_map bar_dt frame b Hb))
    as (Hv & _ & _ & Hr).
  pose proof (identify_all_lines_inv frame s1 Hl1) as [Hlen _].
  destruct Hr as (Hpl & Hdf & _).
  exact (conj Hv (conj Hpl (conj Hdf Hlen))).
Qed.

Lemma run_recording_returns_witness :
  let frame := [bar 0 10 8 9; bar 1 12 9 11; bar 2 11 9 10;
                bar 3 13 10 (25 # 2); bar 4 12 7 (15 # 2)] in
  let r := run "ABC" frame true default in
  value r = Returned tt /\ length (plot_lines (final r)) = 2%nat.
Proof.
  intros frame r.
  destruct (run_recording_returns "ABC" frame default) as (Hv & _).
  - vm_compute. repeat split.
  - vm_compute. repeat constructor; cbn; intuition discriminate.
  - split; [exact Hv|]. vm_compute. reflexivity.
Defined.

(** ** [run] without line recording *)

Lemma identify_all_returns rows : forall s,
  plot s = false -> value (identify_all rows s) = Returned tt.
Proof.
  induction rows as [|t rest IH]; intros s Hoff; [reflexivity|].
  cbn [identify_all].
  pose proof (identify_returns (bar_dt t) (bar_high t) (bar_low t)
                (bar_close t) s Hoff) as Hv.
  destruct (identify_frame (bar_dt t) (bar_high t) (bar_low t)
              (bar_close t) s) as (_ & _ & _ & _ & _ & _ & _ & Hp & _).
  unfold bind.
  destruct (identify (bar_dt t) (bar_high t) (bar_low t) (bar_close t) s)
    as [s1 c1 v1]. cbn [value final] in *. subst v1.
  rewrite Hoff in Hp. specialize (IH s1 Hp).
  destruct (identify_all rest s1) as [s2 c2 v2]. exact IH.
Qed.

(** X10.  On an engine that does not record lines, [run] without line recording
    never raises, whatever the rows and whatever the engine tracked
    before; it sets the symbol, processes every row and leaves the
    thresholds, the callbacks and the recording switch alone. *)
Theorem run_plain_returns sym frame s :
  plot s = false ->
  let r := run sym frame false s in
  value r = Returned tt /\
  r = identify_all frame (set_symbol (Some sym) s) /\
  symbol (final r) = Some sym /\ plot (final r) = false /\
  retrace_threshold (final r) = retrace_threshold s /\
  sideways_threshold (final r) = sideways_threshold s /\
  on_reversal (final r) = on_reversal s /\
  on_breakout (final r) = on_breakout s /\
  plot_lines (final r) = plot_lines s.
Proof.
  intros Hoff. cbv zeta. rewrite run_eq.
  assert (Hoff' : plot (set_symbol (Some sym) s) = false) by exact Hoff.
  destruct (identify_all_config frame (set_symbol (Some sym) s))
    as (_ & H2 & H3 & H4 & H5 & H6 & _ & H8 & H9).
  destruct (H9 Hoff') as [L1 _].
  repeat apply conj; try assumption; try reflexivity.
  - now apply identify_all_returns.
  - rewrite H8. exact Hoff.
Qed.

Lemma run_plain_returns_witness :
  let r := run "ABC" [bar 0 10 8 9; bar 1 12 9 11; bar 2 11 7 (15 # 2)]
             false default in
  value r = Returned tt /\ symbol (final r) = Some "ABC" /\
  trend (final r) = Some DOWN.
Proof.
  intros r.
  destruct (run_plain_returns "ABC"
              [bar 0 10 8 9; bar 1 12 9 11; bar 2 11 7 (15 # 2)] default
              eq_refl) as (H1 & _ & H3 & _).
  refine (conj H1 (conj H3 _)). vm_compute. reflexivity.
Defined.

(** X2.  With recording off [identify] always returns: no comparison or
    subtraction ever meets [None], and the division is only reached behind
    a non-zero pivot. *)
Theorem identify_returns_without_recording dt hi lo cl s :
  plot s = false -> value (identify dt hi lo cl s) = Returned tt.
Proof.
  intros Hp. rewrite identify_by_trend.
  destruct (trend s) as [[]|] eqn:Ht; start_py s r; run_py.
  all: intros ->; close_by_hyps.
Qed.

Lemma identify_returns_without_recording_witness :
  value (identify 3 13 10 (25 # 2) up_pending) = Returned tt.
Proof.
  apply identify_returns_without_recording. vm_compute. reflexivity.
Defined.

(** X1.  [identify] never changes the thresholds, the symbol, the callbacks,
    the logger, the bound history or the recording switch; it appends at
    most one line with its colour, and only when recording is on and a
    history is bound. *)
Theorem identify_keeps_configuration dt hi lo cl s :
  frame_of s (final (identify dt hi lo cl s)).
Proof.
  rewrite identify_by_trend. destruct (trend s) as [[]|].
  - apply identify_up_frame.
  - apply identify_down_frame.
  - apply identify_unset_frame.
Qed.



(** ** The constructor *)


